(** * HotelJT: reservation lifecycle, availability check and period report

    A shallow embedding of [app.py] (Flask + SQLAlchemy + SQLite, one file).

    Conventions of the embedding.
    - A [datetime.date] is its proleptic Gregorian ordinal ([date.toordinal()]),
      an integer: comparison of dates is comparison of ordinals and
      [(d2 - d1).days] is the difference of ordinals.
    - A [Numeric(10, 2)] amount is an integer number of cents.
    - The database is a record of three tables; a table is the list of its
      rows in rowid order, which is the order in which SQLite scans a table
      when a query has no [ORDER BY].
    - A route returns the new database together with what the client gets:
      a redirect carrying a flash message, a 404, or a 500 when the handler
      raises. A handler that raises commits nothing. *)

From Stdlib Require Import ZArith List String Ascii Bool Lia QArith DecimalString.
Import ListNotations.
Open Scope Z_scope.

Definition date := Z.

(** ** Models *)

Module Room.
Record t := mk {
  id : Z;
  number : string;
  room_type : string;
  rate : Z   (* cents *)
}.
End Room.

Module Guest.
Record t := mk {
  id : Z;
  name : string;
  document : option string;
  phone : option string;
  email : option string
}.
End Guest.

(** The [status] column holds one of four strings; they are the constructors. *)
Inductive Status := reservado | checkin | checkout | cancelado.

Definition Status_eqb (a b : Status) : bool :=
  match a, b with
  | reservado, reservado | checkin, checkin
  | checkout, checkout | cancelado, cancelado => true
  | _, _ => false
  end.

(** [Booking.status.in_([...])] and [b.status in (...)]. *)
Definition status_in (l : list Status) (s : Status) : bool :=
  existsb (Status_eqb s) l.

Module Booking.
Record t := mk {
  id : Z;
  room_id : Z;
  guest_id : Z;
  check_in : date;
  check_out : date;
  status : Status;
  notes : option string;
  total_amount : Z;   (* cents *)
  created_at : Z
}.

(** [max((self.check_out - self.check_in).days, 1)] *)
Definition nights (b : t) : Z := Z.max (check_out b - check_in b) 1.

Definition set_status (b : t) (s : Status) : t :=
  mk (id b) (room_id b) (guest_id b) (check_in b) (check_out b) s
     (notes b) (total_amount b) (created_at b).

Definition set_check_out (b : t) (d : date) : t :=
  mk (id b) (room_id b) (guest_id b) (check_in b) d (status b)
     (notes b) (total_amount b) (created_at b).

Definition set_total_amount (b : t) (a : Z) : t :=
  mk (id b) (room_id b) (guest_id b) (check_in b) (check_out b) (status b)
     (notes b) a (created_at b).

Definition set_id (b : t) (i : Z) : t :=
  mk i (room_id b) (guest_id b) (check_in b) (check_out b) (status b)
     (notes b) (total_amount b) (created_at b).
End Booking.

(** ** The database and the session *)

Record DB := mkDB {
  rooms : list Room.t;
  guests : list Guest.t;
  bookings : list Booking.t
}.

Definition get_room (s : DB) (i : Z) : option Room.t :=
  find (fun r => Room.id r =? i) (rooms s).

Definition get_guest (s : DB) (i : Z) : option Guest.t :=
  find (fun g => Guest.id g =? i) (guests s).

(** [Booking.query.get_or_404(booking_id)]; [None] is the 404. *)
Definition get_booking (s : DB) (i : Z) : option Booking.t :=
  find (fun b => Booking.id b =? i) (bookings s).

(** [query.filter(...).first()]: the first row, in scan order, that passes. *)
Definition first {A} (l : list A) : option A := hd_error l.

(** An [INTEGER PRIMARY KEY] gets the largest rowid plus one. *)
Definition next_id (s : DB) : Z :=
  1 + fold_right Z.max 0 (map Booking.id (bookings s)).

(** [db.session.add(b); db.session.commit()] for a new object. *)
Definition db_add (s : DB) (b : Booking.t) : DB :=
  mkDB (rooms s) (guests s) (bookings s ++ [Booking.set_id b (next_id s)]).

(** [db.session.commit()] after the attributes of the loaded row [b] were
    assigned: the row with [b]'s primary key is rewritten. *)
Definition db_update (s : DB) (b : Booking.t) : DB :=
  mkDB (rooms s) (guests s)
       (map (fun x => if Booking.id x =? Booking.id b then b else x) (bookings s)).

(** State of a mapped object with respect to the session.
    [Booking(...)] builds a transient object; [get_or_404] and [first()]
    return persistent ones. *)
Inductive ObjState := transient | persistent.

(** The relationship attribute [b.room] ([db.relationship(Room)], lazy).
    On a persistent object the first access loads the [Room] whose primary key
    is the current [room_id] (pending changes are flushed first). On a
    transient object the ORM emits no load (relationship loading needs a
    session and a row identity): the attribute was never assigned and reads as
    [None], whatever [room_id] holds. *)
Definition Booking_room (s : DB) (st : ObjState) (b : Booking.t) : option Room.t :=
  match st with
  | transient => None
  | persistent => get_room s (Booking.room_id b)
  end.

(** [conflict.guest]: [conflict] always comes from a query. *)
Definition Booking_guest (s : DB) (b : Booking.t) : option Guest.t :=
  get_guest s (Booking.guest_id b).

(** [(self.room.rate or Decimal("0.00")) * self.nights()].
    [None] is the [AttributeError] of [self.room.rate] when [self.room] is
    [None]. *)
Definition compute_amount (s : DB) (st : ObjState) (b : Booking.t) : option Z :=
  match Booking_room s st b with
  | None => None
  | Some r =>
      Some ((if Room.rate r =? 0 then 0 else Room.rate r) * Booking.nights b)
  end.

(** Seed of the bootstrap: 22 rooms, ids 1..22, numbers 101..122. *)
Definition str (n : Z) : string :=
  DecimalString.NilEmpty.string_of_uint (N.to_uint (Z.to_N n)).

Definition seed_room (n : Z) : Room.t :=
  let i := n - 100 in
  if n <? 106 then Room.mk i (str n) "Single"%string 11000
  else if n <? 116 then Room.mk i (str n) "Duplo"%string 20000
  else if n <? 121 then Room.mk i (str n) "Triplo"%string 29000
  else Room.mk i (str n) "Quadruplo"%string 36000.

Definition seed_rooms : list Room.t :=
  map (fun k => seed_room (Z.of_nat k)) (seq 101 22).

(** ** Replies *)

Inductive Flash :=
| InvalidDateRange                 (* "Data de check-out deve ser apos check-in" *)
| RoomUnavailable (guest_name : string)
                                   (* "Conflito: quarto ja reservado/ocupado por ..." *)
| InvalidTransition                (* "Operacao invalida. ..." *)
| BookingCreated                   (* "Reserva criada." *)
| BookingUpdated                   (* "Reserva atualizada." *)
| CheckinDone                      (* "Check-in realizado." *)
| CheckoutDone                     (* "Check-out realizado." *)
| BookingCancelled                 (* "Reserva cancelada." *)
| ReportInvalidRange               (* "Data final deve ser maior que data inicial" *)
| ReportInvalidDates.              (* "Datas invalidas" *)

Inductive Reply :=
| Redirect (f : Flash)
| Abort404
| Abort500.          (* the handler raised *)

(** ** Booking routes (POST bodies already decoded by [int] and [strptime]) *)

Record BookingForm := mkForm {
  f_room_id : Z;
  f_guest_id : Z;
  f_check_in : date;
  f_check_out : date;
  f_notes : option string
}.

Definition active : list Status := [reservado; checkin].

(** The four filters of the conflict query of [new_booking]. *)
Definition conflicts_with (f : BookingForm) (x : Booking.t) : bool :=
  (Booking.room_id x =? f_room_id f)
  && status_in active (Booking.status x)
  && (Booking.check_in x <? f_check_out f)
  && (Booking.check_out x >? f_check_in f).

Definition new_booking (now : Z) (s : DB) (f : BookingForm) : DB * Reply :=
  if f_check_out f <=? f_check_in f then (s, Redirect InvalidDateRange)
  else
    match first (filter (conflicts_with f) (bookings s)) with
    | Some conflict =>
        match Booking_guest s conflict with
        | Some g => (s, Redirect (RoomUnavailable (Guest.name g)))
        | None => (s, Abort500)
        end
    | None =>
        let b := Booking.mk 0 (f_room_id f) (f_guest_id f) (f_check_in f)
                            (f_check_out f) reservado (f_notes f) 0 now in
        match compute_amount s transient b with
        | None => (s, Abort500)
        | Some a =>
            (db_add s (Booking.set_total_amount b a), Redirect BookingCreated)
        end
    end.

Definition booking_edit (s : DB) (booking_id : Z) (f : BookingForm) : DB * Reply :=
  match get_booking s booking_id with
  | None => (s, Abort404)
  | Some b =>
      if f_check_out f <=? f_check_in f then (s, Redirect InvalidDateRange)
      else
        match first (filter (fun x => negb (Booking.id x =? booking_id)
                                      && conflicts_with f x) (bookings s)) with
        | Some conflict =>
            match Booking_guest s conflict with
            | Some g => (s, Redirect (RoomUnavailable (Guest.name g)))
            | None => (s, Abort500)
            end
        | None =>
            let b1 := Booking.mk (Booking.id b) (f_room_id f) (f_guest_id f)
                                 (f_check_in f) (f_check_out f) (Booking.status b)
                                 (f_notes f) (Booking.total_amount b)
                                 (Booking.created_at b) in
            match compute_amount s persistent b1 with
            | None => (s, Abort500)
            | Some a =>
                (db_update s (Booking.set_total_amount b1 a), Redirect BookingUpdated)
            end
        end
  end.

Definition booking_checkin (s : DB) (booking_id : Z) : DB * Reply :=
  match get_booking s booking_id with
  | None => (s, Abort404)
  | Some b =>
      if negb (Status_eqb (Booking.status b) reservado)
      then (s, Redirect InvalidTransition)
      else (db_update s (Booking.set_status b checkin), Redirect CheckinDone)
  end.

Definition booking_checkout (today : date) (s : DB) (booking_id : Z) : DB * Reply :=
  match get_booking s booking_id with
  | None => (s, Abort404)
  | Some b =>
      if negb (Status_eqb (Booking.status b) checkin)
      then (s, Redirect InvalidTransition)
      else
        let b1 := Booking.set_check_out b today in
        match compute_amount s persistent b1 with
        | None => (s, Abort500)
        | Some a =>
            (db_update s (Booking.set_status (Booking.set_total_amount b1 a) checkout),
             Redirect CheckoutDone)
        end
  end.

Definition booking_cancel (s : DB) (booking_id : Z) : DB * Reply :=
  match get_booking s booking_id with
  | None => (s, Abort404)
  | Some b =>
      if status_in [checkout; cancelado] (Booking.status b)
      then (s, Redirect InvalidTransition)
      else (db_update s (Booking.set_status b cancelado), Redirect BookingCancelled)
  end.

(** ** Calendar of [datetime.date], by ordinal

    [ymd2ord] and [ord2ymd] follow [_ymd2ord] and [_ord2ymd] of the [datetime]
    module; they serve [t.replace(day=1)] in the default report period. *)

Module Calendar.
Definition is_leap (y : Z) : bool :=
  (y mod 4 =? 0) && (negb (y mod 100 =? 0) || (y mod 400 =? 0)).

Definition days_before_year (y : Z) : Z :=
  let y1 := y - 1 in y1 * 365 + y1 / 4 - y1 / 100 + y1 / 400.

Definition DAYS_IN_MONTH : list Z :=
  [-1; 31; 28; 31; 30; 31; 30; 31; 31; 30; 31; 30; 31].

Definition DAYS_BEFORE_MONTH : list Z :=
  [-1; 0; 31; 59; 90; 120; 151; 181; 212; 243; 273; 304; 334].

Definition days_in_month (y m : Z) : Z :=
  if (m =? 2) && is_leap y then 29 else nth (Z.to_nat m) DAYS_IN_MONTH 0.

Definition days_before_month (y m : Z) : Z :=
  nth (Z.to_nat m) DAYS_BEFORE_MONTH 0
  + (if (m >? 2) && is_leap y then 1 else 0).

Definition ymd2ord (y m d : Z) : Z :=
  days_before_year y + days_before_month y m + d.

Definition ord2ymd (n0 : Z) : Z * Z * Z :=
  let n := n0 - 1 in
  let n400 := n / 146097 in let n := n mod 146097 in
  let year := n400 * 400 + 1 in
  let n100 := n / 36524 in let n := n mod 36524 in
  let n4 := n / 1461 in let n := n mod 1461 in
  let n1 := n / 365 in let n := n mod 365 in
  let year := year + n100 * 100 + n4 * 4 + n1 in
  if (n1 =? 4) || (n100 =? 4) then (year - 1, 12, 31)
  else
    let leapyear := (n1 =? 3) && (negb (n4 =? 24) || (n100 =? 3)) in
    let month := Z.shiftr (n + 50) 5 in
    let preceding := nth (Z.to_nat month) DAYS_BEFORE_MONTH 0
                     + (if (month >? 2) && leapyear then 1 else 0) in
    if preceding >? n then
      let month := month - 1 in
      let preceding := preceding
                       - (nth (Z.to_nat month) DAYS_IN_MONTH 0
                          + (if (month =? 2) && leapyear then 1 else 0)) in
      (year, month, n - preceding + 1)
    else (year, month, n - preceding + 1).

(** [d.replace(day=1)] *)
Definition replace_day1 (d : date) : date :=
  let '(y, m, _) := ord2ymd d in ymd2ord y m 1.

(** A sample of [datetime.strptime(s, "%Y-%m-%d").date()]: the ten-character
    form [YYYY-MM-DD] of a valid date; [None] is [ValueError]. *)
Definition digit (c : ascii) : option Z :=
  let n := Z.of_N (N_of_ascii c) in
  if (48 <=? n) && (n <=? 57) then Some (n - 48) else None.

Fixpoint number (acc : Z) (l : list ascii) : option Z :=
  match l with
  | [] => Some acc
  | c :: l' => match digit c with
               | Some k => number (10 * acc + k) l'
               | None => None
               end
  end.

Definition iso_date (s : string) : option date :=
  match list_ascii_of_string s with
  | [y1; y2; y3; y4; "-"%char; m1; m2; "-"%char; d1; d2] =>
      match number 0 [y1; y2; y3; y4], number 0 [m1; m2], number 0 [d1; d2] with
      | Some y, Some m, Some d =>
          if (1 <=? y) && (1 <=? m) && (m <=? 12) && (1 <=? d)
             && (d <=? days_in_month y m)
          then Some (ymd2ord y m d) else None
      | _, _, _ => None
      end
  | _ => None
  end.
End Calendar.

(** ** Period report *)

Inductive ReportReply :=
| ReportPage (flashes : list Flash) (start end_ : date) (revenue : Z) (rate : Q)
| Report500 (flashes : list Flash).   (* the handler or the template raised *)

(** Truth value of [request.form.get("d1")]: a non-empty string. *)
Definition truthy (o : option string) : bool :=
  match o with
  | Some (String _ _) => true
  | _ => false
  end.

(** [a / b] on integers; [None] is [ZeroDivisionError]. The float quotient is
    taken as the exact rational. *)
Definition truediv (a b : Z) : option Q :=
  if b =? 0 then None else Some (inject_Z a / inject_Z b)%Q.

(** Lines 678-707 of [reports]: the two figures, from the period the first
    part of the handler settled on ([None] after a reset). *)
Definition report_figures (s : DB) (period : option (date * date)) : option (Z * Q) :=
  match period with
  | None => Some (0, 0%Q)
  | Some (start_date, end_date) =>
      let total_revenue :=
        fold_right Z.add 0
          (map Booking.total_amount
             (filter (fun b => Status_eqb (Booking.status b) checkout
                               && (Booking.check_out b >=? start_date)
                               && (Booking.check_out b <? end_date))
                     (bookings s))) in
      let period_days := end_date - start_date in
      let total_rooms := Z.of_nat (List.length (rooms s)) in
      let total_room_nights_available := period_days * total_rooms in
      if total_room_nights_available >? 0 then
        let overlapping_bookings :=
          filter (fun b => status_in [checkin; checkout] (Booking.status b)
                           && (Booking.check_in b <? end_date)
                           && (Booking.check_out b >? start_date))
                 (bookings s) in
        let occupied_nights :=
          fold_left (fun acc b =>
                       let overlap_start := Z.max (Booking.check_in b) start_date in
                       let overlap_end := Z.min (Booking.check_out b) end_date in
                       acc + (overlap_end - overlap_start))
                    overlapping_bookings 0 in
        if total_room_nights_available >? 0 then
          match truediv occupied_nights total_room_nights_available with
          | Some q => Some (total_revenue, (q * 100)%Q)
          | None => None
          end
        else Some (total_revenue, 0%Q)
      else Some (total_revenue, 0%Q)
  end.

Section Reports.
(** [datetime.strptime(s, "%Y-%m-%d").date()]; [None] is [ValueError]. *)
Variable strptime : string -> option date.

(** Lines 659-676 of [reports]: the period and the flashed messages. *)
Definition report_period (today : date) (start_str end_str : option string)
  : option (date * date) * list Flash :=
  match start_str, end_str with
  | Some d1, Some d2 =>
      if truthy start_str && truthy end_str then
        match strptime d1 with
        | None => (None, [ReportInvalidDates])
        | Some start_date =>
            match strptime d2 with
            | None => (None, [ReportInvalidDates])
            | Some end_date =>
                if end_date <=? start_date then (None, [ReportInvalidRange])
                else (Some (start_date, end_date), [])
            end
        end
      else
        let start_date := Calendar.replace_day1 today in
        (Some (start_date, Calendar.replace_day1 (start_date + 32)), [])
  | _, _ =>
      let start_date := Calendar.replace_day1 today in
      (Some (start_date, Calendar.replace_day1 (start_date + 32)), [])
  end.

(** The whole handler. The template formats the period with
    [start.strftime(...)] and [end.strftime(...)], which raises when the
    period was reset to [None]. *)
Definition reports (today : date) (s : DB) (start_str end_str : option string)
  : ReportReply :=
  let '(period, flashes) := report_period today start_str end_str in
  match report_figures s period with
  | None => Report500 flashes
  | Some (total_revenue, occupation_rate) =>
      match period with
      | None => Report500 flashes
      | Some (start_date, end_date) =>
          ReportPage flashes start_date end_date total_revenue occupation_rate
      end
  end.
End Reports.

(** ** Requests that mutate the booking table *)

Inductive Request :=
| POST_new_booking (now : Z) (f : BookingForm)
| POST_booking_edit (booking_id : Z) (f : BookingForm)
| GET_booking_checkin (booking_id : Z)
| GET_booking_checkout (today : date) (booking_id : Z)
| GET_booking_cancel (booking_id : Z).

Definition handle (s : DB) (r : Request) : DB * Reply :=
  match r with
  | POST_new_booking now f => new_booking now s f
  | POST_booking_edit i f => booking_edit s i f
  | GET_booking_checkin i => booking_checkin s i
  | GET_booking_checkout today i => booking_checkout today s i
  | GET_booking_cancel i => booking_cancel s i
  end.

Definition run (s : DB) (rs : list Request) : DB :=
  fold_left (fun s r => fst (handle s r)) rs s.

(** ** Properties of the booking table *)

Definition is_active (b : Booking.t) : bool := status_in active (Booking.status b).

(** Half-open overlap test: [A.check_in < B.check_out AND B.check_in < A.check_out]. *)
Definition overlap (a b : Booking.t) : Prop :=
  Booking.check_in a < Booking.check_out b /\ Booking.check_in b < Booking.check_out a.

(** The stay of [b] covers the night of [d]: [check_in <= d < check_out]. *)
Definition covers (b : Booking.t) (d : date) : Prop :=
  Booking.check_in b <= d < Booking.check_out b.

Definition unique_ids (l : list Booking.t) : Prop := NoDup (map Booking.id l).

Definition no_overlap (l : list Booking.t) : Prop :=
  forall x y, In x l -> In y l -> Booking.id x <> Booking.id y ->
    Booking.room_id x = Booking.room_id y ->
    is_active x = true -> is_active y = true -> ~ overlap x y.

Definition Inv (s : DB) : Prop :=
  unique_ids (bookings s) /\ no_overlap (bookings s).

Definition at_most_one_per_night (s : DB) : Prop :=
  forall (room : Z) (d : date) x y,
    In x (bookings s) -> In y (bookings s) ->
    Booking.room_id x = room -> Booking.room_id y = room ->
    is_active x = true -> is_active y = true ->
    covers x d -> covers y d -> x = y.

(** Two rows differ at most in [status]. *)
Definition same_but_status (b b' : Booking.t) : Prop :=
  Booking.id b' = Booking.id b
  /\ Booking.room_id b' = Booking.room_id b
  /\ Booking.guest_id b' = Booking.guest_id b
  /\ Booking.check_in b' = Booking.check_in b
  /\ Booking.check_out b' = Booking.check_out b
  /\ Booking.notes b' = Booking.notes b
  /\ Booking.total_amount b' = Booking.total_amount b
  /\ Booking.created_at b' = Booking.created_at b.

(** The rule the specification names for the reported conflict: among the
    conflicting bookings, the first one by descending check-in date.
    This definition follows the specification, not [new_booking]. *)
Definition conflict_by_check_in_desc (f : BookingForm) (l : list Booking.t)
  : option Booking.t :=
  fold_left (fun best x =>
               match best with
               | None => Some x
               | Some y => if Booking.check_in y <? Booking.check_in x
                           then Some x else Some y
               end)
            (filter (conflicts_with f) l) None.

(** The row a successful check-out writes. *)
Definition checked_out (b : Booking.t) (r : Room.t) (today : date) : Booking.t :=
  Booking.mk (Booking.id b) (Booking.room_id b) (Booking.guest_id b)
             (Booking.check_in b) today checkout (Booking.notes b)
             (Room.rate r * Z.max (today - Booking.check_in b) 1)
             (Booking.created_at b).

(** ** Sample data *)

Definition ymd (y m d : Z) : date := Calendar.ymd2ord y m d.

Definition sample_guests : list Guest.t :=
  [ Guest.mk 1 "Ana" None None None;
    Guest.mk 2 "Bruno" None None None;
    Guest.mk 3 "Carla" None None None ]%string.

(** After the bootstrap and three guest registrations. *)
Definition fresh_db : DB := mkDB seed_rooms sample_guests [].

Definition booking_A : Booking.t :=
  Booking.mk 1 1 1 (ymd 2024 3 10) (ymd 2024 3 12) reservado None 22000 0.

Definition booking_B : Booking.t :=
  Booking.mk 2 1 2 (ymd 2024 3 12) (ymd 2024 3 14) checkin None 22000 0.

Definition booking_C : Booking.t :=
  Booking.mk 3 6 3 (ymd 2024 3 1) (ymd 2024 3 5) checkout None 80000 0.

Definition room_101 : Room.t := Room.mk 1 "101" "Single" 11000.

Definition one_booking_db : DB := mkDB seed_rooms sample_guests [booking_A].

Definition sample_db : DB :=
  mkDB seed_rooms sample_guests [booking_A; booking_B; booking_C].

Definition no_rooms_db : DB := mkDB [] sample_guests [booking_C].

(** Room 101 (id 1), 2024-03-10 to 2024-03-12, guest 1. *)
Definition scenario_A : BookingForm :=
  mkForm 1 1 (ymd 2024 3 10) (ymd 2024 3 12) None.

(** Room 101, 2024-03-11 to 2024-03-13. *)
Definition scenario_B : BookingForm :=
  mkForm 1 3 (ymd 2024 3 11) (ymd 2024 3 13) None.

(** Room 101, starting the day [booking_A] ends. *)
Definition touching_after : BookingForm :=
  mkForm 1 3 (ymd 2024 3 12) (ymd 2024 3 14) None.

(** Room 101, ending the day [booking_A] starts. *)
Definition touching_before : BookingForm :=
  mkForm 1 3 (ymd 2024 3 8) (ymd 2024 3 10) None.

Definition sample_requests : list Request :=
  [ GET_booking_checkin 1;
    POST_booking_edit 1 (mkForm 1 1 (ymd 2024 3 9) (ymd 2024 3 12) None);
    POST_booking_edit 1 (mkForm 1 1 (ymd 2024 3 9) (ymd 2024 3 13) None);
    GET_booking_checkout (ymd 2024 3 13) 2;
    POST_new_booking 0 scenario_B;
    GET_booking_cancel 1 ].

From Stdlib Require Import Permutation Sorted.

(** ** Ordered and limited queries *)

(** [ORDER BY]: an insertion sort; rows that compare equal keep the scan
    order. *)
Fixpoint insert_by {A} (le : A -> A -> bool) (x : A) (l : list A) : list A :=
  match l with
  | [] => [x]
  | y :: l' => if le x y then x :: l else y :: insert_by le x l'
  end.

Definition order_by {A} (le : A -> A -> bool) (l : list A) : list A :=
  fold_right (insert_by le) [] l.

(** [Booking.check_in.asc()] and [Booking.check_in.desc()]. *)
Definition check_in_asc (x y : Booking.t) : bool :=
  Booking.check_in x <=? Booking.check_in y.

Definition check_in_desc (x y : Booking.t) : bool :=
  Booking.check_in y <=? Booking.check_in x.

(** [.limit(n)] *)
Definition limit {A} (n : nat) (l : list A) : list A := firstn n l.

(** ** Derived room status *)

Definition STATUS_BADGE : list (string * string) :=
  [ ("livre", "bg-green-100 text-green-800");
    ("reservado", "bg-yellow-100 text-yellow-800");
    ("checkin", "bg-blue-100 text-blue-800");
    ("checkout", "bg-gray-100 text-gray-800");
    ("cancelado", "bg-red-100 text-red-800") ]%string.

(** The filters of the query of [room_status]. *)
Definition occupies (room_id : Z) (reference : date) (b : Booking.t) : bool :=
  (Booking.room_id b =? room_id)
  && status_in [reservado; checkin] (Booking.status b)
  && (Booking.check_in b <=? reference)
  && (Booking.check_out b >? reference).

(** [reference or today()]: a date is always true, so only [None] is
    replaced. *)
Definition room_status (today : date) (s : DB) (room : Room.t)
           (reference : option date) : string :=
  let reference := match reference with Some d => d | None => today end in
  let active :=
    first (order_by check_in_desc
                    (filter (occupies (Room.id room) reference) (bookings s))) in
  match active with
  | Some a => if Status_eqb (Booking.status a) checkin
              then "checkin"%string else "reservado"%string
  | None => "livre"%string
  end.

(** ** Read-only views: what each handler hands to its template *)

Definition Status_str (st : Status) : string :=
  match st with
  | reservado => "reservado"
  | checkin => "checkin"
  | checkout => "checkout"
  | cancelado => "cancelado"
  end.

Module Dashboard.
Record t := mk {
  occupied : Z;
  total_rooms : Z;
  revenue : Z;      (* cents *)
  upcoming : list Booking.t
}.
End Dashboard.

(** The action links of the booking page. *)
Inductive Link := LinkCheckin | LinkCancel | LinkCheckout | LinkEdit.

(** An integer the database driver can bind: a signed 64-bit value. With a
    larger one in a query or in a row being written the driver raises
    [OverflowError] and the request ends in a 500. *)
Definition sqlite_int (i : Z) : bool :=
  (- 2 ^ 63 <=? i) && (i <? 2 ^ 63).

(** What a page addressed by an id answers: [get_or_404] raises on an id the
    driver cannot bind, aborts with 404 when no row has the id, and otherwise
    the template gets its values. *)
Inductive Page (A : Type) :=
| Page500
| Page404
| PageOk (a : A).
Arguments Page500 {A}.
Arguments Page404 {A}.
Arguments PageOk {A} a.

(** The filters of the occupancy count of [dashboard]. *)
Definition in_house (d : date) (b : Booking.t) : bool :=
  status_in [checkin] (Booking.status b)
  && (Booking.check_in b <=? d) && (Booking.check_out b >? d).

Module View.

Definition dashboard (today : date) (s : DB) : Dashboard.t :=
  let d := today in
  let occupied :=
    Z.of_nat (List.length (filter (in_house d) (bookings s))) in
  let total_rooms := Z.of_nat (List.length (rooms s)) in
  let start_month := Calendar.replace_day1 d in
  let next_month := Calendar.replace_day1 (start_month + 32) in
  let revenue :=
    fold_right Z.add 0
      (map Booking.total_amount
         (filter (fun b => Status_eqb (Booking.status b) checkout
                           && (Booking.check_out b >=? start_month)
                           && (Booking.check_out b <? next_month))
                 (bookings s))) in
  let upcoming :=
    limit 5 (order_by check_in_asc
               (filter (fun b => Status_eqb (Booking.status b) reservado
                                 && (Booking.check_in b >=? d))
                       (bookings s))) in
  Dashboard.mk occupied total_rooms revenue upcoming.

(** [rooms()]: every room, by number, with its status today. *)
Definition rooms (today : date) (s : DB) : list (Room.t * string) :=
  let all_rooms :=
    order_by (fun a b => String.leb (Room.number a) (Room.number b)) (rooms s) in
  map (fun r => (r, room_status today s r None)) all_rooms.


(** [bookings()] with the [status] query argument ([""] when absent). *)
Definition bookings (s : DB) (status : string) : list Booking.t :=
  let base :=
    match status with
    | EmptyString => bookings s
    | _ => filter (fun b => String.eqb (Status_str (Booking.status b)) status)
                  (bookings s)
    end in
  limit 200 (order_by check_in_desc base).

(** [booking_detail(booking_id)]: the row and the links its page offers. *)
Definition booking_detail (s : DB) (booking_id : Z)
  : Page (Booking.t * list Link) :=
  if negb (sqlite_int booking_id) then Page500
  else
    match get_booking s booking_id with
    | None => Page404
    | Some b =>
        PageOk (b,
                (match Booking.status b with
                 | reservado => [LinkCheckin; LinkCancel]
                 | checkin => [LinkCheckout]
                 | _ => []
                 end) ++ [LinkEdit])
    end.

End View.

(** The request a link of the booking page issues ([LinkEdit] opens the form,
    which is then posted with the data entered). *)
Definition follow (today : date) (booking_id : Z) (f : BookingForm) (l : Link)
  : Request :=
  match l with
  | LinkCheckin => GET_booking_checkin booking_id
  | LinkCancel => GET_booking_cancel booking_id
  | LinkCheckout => GET_booking_checkout today booking_id
  | LinkEdit => POST_booking_edit booking_id f
  end.

(** ** Guest routes *)

Record GuestForm := mkGuestForm {
  g_name : option string;        (* [None]: the field is absent *)
  g_document : option string;
  g_phone : option string;
  g_email : option string
}.

Inductive GuestReply :=
| GuestRegistered        (* "Hospede cadastrado." *)
| GuestUpdated           (* "Hospede atualizado." *)
| GuestBadRequest        (* [request.form["name"]] on an absent field: 400 *)
| GuestNotFound          (* 404 *)
| GuestIntegrityError.   (* [uq_guest_document] violated at commit: 500 *)

(** [request.form.get(key, "")] *)
Definition form_get (o : option string) : string :=
  match o with Some v => v | None => EmptyString end.

(** [v or None] on a string. *)
Definition or_None (v : string) : option string :=
  match v with EmptyString => None | _ => Some v end.

(** [uq_guest_document]: a document that is not NULL is held by no other
    row; [skip] is the id of the row being rewritten. *)
Definition document_taken (l : list Guest.t) (skip : option Z) (d : option string)
  : bool :=
  match d with
  | None => false
  | Some v =>
      existsb (fun g =>
                 match Guest.document g with
                 | Some v' =>
                     String.eqb v v'
                     && match skip with
                        | Some i => negb (Guest.id g =? i)
                        | None => true
                        end
                 | None => false
                 end) l
  end.

Definition next_guest_id (s : DB) : Z :=
  1 + fold_right Z.max 0 (map Guest.id (guests s)).

Section GuestRoutes.
(** [str.strip()] *)
Variable strip : string -> string.

Definition new_guest (s : DB) (f : GuestForm) : DB * GuestReply :=
  match g_name f with
  | None => (s, GuestBadRequest)
  | Some name =>
      let g := Guest.mk (next_guest_id s) (strip name)
                        (or_None (strip (form_get (g_document f))))
                        (or_None (strip (form_get (g_phone f))))
                        (or_None (strip (form_get (g_email f)))) in
      if document_taken (guests s) None (Guest.document g)
      then (s, GuestIntegrityError)
      else (mkDB (rooms s) (guests s ++ [g]) (bookings s), GuestRegistered)
  end.

Definition edit_guest (s : DB) (guest_id : Z) (f : GuestForm) : DB * GuestReply :=
  match get_guest s guest_id with
  | None => (s, GuestNotFound)
  | Some g0 =>
      match g_name f with
      | None => (s, GuestBadRequest)
      | Some name =>
          let g := Guest.mk (Guest.id g0) (strip name)
                            (or_None (strip (form_get (g_document f))))
                            (or_None (strip (form_get (g_phone f))))
                            (or_None (strip (form_get (g_email f)))) in
          if document_taken (guests s) (Some (Guest.id g0)) (Guest.document g)
          then (s, GuestIntegrityError)
          else (mkDB (rooms s)
                     (map (fun x => if Guest.id x =? Guest.id g then g else x)
                          (guests s))
                     (bookings s),
                GuestUpdated)
      end
  end.
End GuestRoutes.

(** The reference date [room_status] settles on. *)
Definition reference_or (today : date) (reference : option date) : date :=
  match reference with Some d => d | None => today end.


(** Every booking refers to a room on file. *)
Definition rooms_on_file (s : DB) : Prop :=
  forall b, In b (bookings s) -> In (Booking.room_id b) (map Room.id (rooms s)).

(** ** Vocabulary of the transition properties *)

(** The reply reports a change that was committed. *)
Definition succeeded (r : Reply) : bool :=
  match r with
  | Redirect BookingCreated | Redirect BookingUpdated | Redirect CheckinDone
  | Redirect CheckoutDone | Redirect BookingCancelled => true
  | _ => false
  end.

(** Status [b] is [a] or lies after it: [reservado] before [checkin] before
    [checkout], and [cancelado] after [reservado] and [checkin]. *)
Definition reaches (a b : Status) : Prop :=
  a = b \/ a = reservado \/ (a = checkin /\ (b = checkout \/ b = cancelado)).

(** The row a successful edit writes. *)
Definition edited (b : Booking.t) (f : BookingForm) (r : Room.t) : Booking.t :=
  Booking.mk (Booking.id b) (f_room_id f) (f_guest_id f) (f_check_in f)
             (f_check_out f) (Booking.status b) (f_notes f)
             (Room.rate r * (f_check_out f - f_check_in f))
             (Booking.created_at b).

(** The form that re-submits the data of a stored booking. *)
Definition form_of (b : Booking.t) : BookingForm :=
  mkForm (Booking.room_id b) (Booking.guest_id b) (Booking.check_in b)
         (Booking.check_out b) (Booking.notes b).

(** ** Vocabulary of the report properties *)

(** The revenue query of [reports]: the amounts of the [checkout] bookings
    whose check-out falls in [[start_date, end_date)]. *)
Definition period_revenue (s : DB) (start_date end_date : date) : Z :=
  fold_right Z.add 0
    (map Booking.total_amount
       (filter (fun b => Status_eqb (Booking.status b) checkout
                         && (Booking.check_out b >=? start_date)
                         && (Booking.check_out b <? end_date))
               (bookings s))).

(** The bookings the occupancy figure counts. *)
Definition counted (b : Booking.t) : bool :=
  status_in [checkin; checkout] (Booking.status b).

(** No counted booking ends before it starts. *)
Definition stays_well_formed (s : DB) : Prop :=
  forall x, In x (bookings s) -> counted x = true ->
    Booking.check_in x <= Booking.check_out x.

(** No two counted bookings of one room overlap. *)
Definition no_double_count (s : DB) : Prop :=
  forall x y, In x (bookings s) -> In y (bookings s) ->
    Booking.id x <> Booking.id y -> Booking.room_id x = Booking.room_id y ->
    counted x = true -> counted y = true -> ~ overlap x y.

Definition sumZ {A} (f : A -> Z) (l : list A) : Z :=
  fold_right (fun x acc => f x + acc) 0 l.

(** Nights of the stay of [x] inside [[a, e)], never negative. *)
Definition nights_within (a e : date) (x : Booking.t) : Z :=
  Z.max 0 (Z.min (Booking.check_out x) e - Z.max (Booking.check_in x) a).

Definition covers_b (d : date) (x : Booking.t) : bool :=
  (Booking.check_in x <=? d) && (Booking.check_out x >? d).

(** ** Vocabulary of the calendar property *)

(** [p] holds on the [n] days from [d] on. *)
Fixpoint all_days (n : nat) (d : date) (p : date -> bool) : bool :=
  match n with
  | O => true
  | S k => if p d then all_days k (d + 1) p else false
  end.

(** First day of the month after month [m] of year [y]. *)
Definition first_of_next_month (y m : Z) : date :=
  if m =? 12 then Calendar.ymd2ord (y + 1) 1 1 else Calendar.ymd2ord y (m + 1) 1.

(** The default period computed on day [d] is the calendar month of [d]. *)
Definition month_ok (d : date) : bool :=
  let start_date := Calendar.replace_day1 d in
  let end_date := Calendar.replace_day1 (start_date + 32) in
  let '(y, m, _) := Calendar.ord2ymd d in
  (1 <=? m) && (m <=? 12)
  && (start_date =? Calendar.ymd2ord y m 1)
  && (end_date =? first_of_next_month y m)
  && (start_date <=? d) && (d <? end_date).

(** [booking_B] checked out on 2024-03-11, the day before its check-in. *)
Definition booking_B_left_early : Booking.t :=
  checked_out booking_B room_101 (ymd 2024 3 11).

Definition early_checkout_db : DB :=
  mkDB seed_rooms sample_guests [booking_A; booking_B_left_early].

(** ** Vocabulary of the guest properties *)

Inductive GuestRequest :=
| POST_new_guest (f : GuestForm)
| POST_edit_guest (guest_id : Z) (f : GuestForm).

Definition handle_guest (strip : string -> string) (s : DB) (r : GuestRequest)
  : DB * GuestReply :=
  match r with
  | POST_new_guest f => new_guest strip s f
  | POST_edit_guest i f => edit_guest strip s i f
  end.

Definition run_guests (strip : string -> string) (s : DB) (rs : list GuestRequest)
  : DB :=
  fold_left (fun s r => fst (handle_guest strip s r)) rs s.

(** The documents on file, one entry per guest that has one. *)
Definition documents (l : list Guest.t) : list string :=
  flat_map (fun g => match Guest.document g with
                     | Some d => [d]
                     | None => []
                     end) l.

(** Guest ids are distinct and no document is held by two guests. *)
Definition guests_ok (s : DB) : Prop :=
  NoDup (map Guest.id (guests s)) /\ NoDup (documents (guests s)).

(** A sample of [str.strip()]: spaces at both ends are dropped. *)
Fixpoint lstrip (v : string) : string :=
  match v with
  | String " " v' => lstrip v'
  | _ => v
  end.

Fixpoint rev_string (acc v : string) : string :=
  match v with
  | EmptyString => acc
  | String c v' => rev_string (String c acc) v'
  end.

Definition strip_spaces (v : string) : string :=
  rev_string EmptyString (lstrip (rev_string EmptyString (lstrip v))).

Definition guests_db : DB :=
  mkDB seed_rooms
       [ Guest.mk 1 "Ana" (Some "111") None None;
         Guest.mk 2 "Bruno" None None None ]%string
       [].

(** ** Bootstrap *)

(** [db.create_all()] and the seed, which runs only on an empty rooms
    table. *)
Definition bootstrap (s : DB) : DB :=
  if Z.of_nat (List.length (rooms s)) =? 0
  then mkDB seed_rooms (guests s) (bookings s)
  else s.

(** * Lemmas on the tables *)

Lemma find_id_some (l : list Booking.t) (i : Z) (b : Booking.t) :
  find (fun b => Booking.id b =? i) l = Some b -> In b l /\ Booking.id b = i.
Proof.
  intros H. apply find_some in H. destruct H as [H1 H2].
  split; [assumption | now apply Z.eqb_eq].
Qed.

Lemma get_booking_some (s : DB) (i : Z) (b : Booking.t) :
  get_booking s i = Some b -> In b (bookings s) /\ Booking.id b = i.
Proof. apply find_id_some. Qed.

Lemma first_filter_none {A} (p : A -> bool) (l : list A) :
  first (filter p l) = None -> forall x, In x l -> p x = false.
Proof.
  induction l as [|a l IH]; simpl; intros H x Hx.
  - contradiction.
  - destruct (p a) eqn:Ea; simpl in H; try discriminate.
    destruct Hx as [<-|Hx]; auto.
Qed.

Lemma first_filter_some {A} (p : A -> bool) (l : list A) (c : A) :
  first (filter p l) = Some c -> In c l /\ p c = true.
Proof.
  intros H. assert (Hin : In c (filter p l)).
  { destruct (filter p l); simpl in H; inversion H; subst; now left. }
  apply filter_In in Hin. exact Hin.
Qed.

Lemma unique_ids_eq (l : list Booking.t) (x y : Booking.t) :
  unique_ids l -> In x l -> In y l -> Booking.id x = Booking.id y -> x = y.
Proof.
  unfold unique_ids. induction l as [|a l IH]; simpl; intros Hnd Hx Hy E.
  - contradiction.
  - inversion Hnd as [|? ? Hnotin Hnd']; subst.
    destruct Hx as [<-|Hx], Hy as [<-|Hy]; auto.
    + exfalso. apply Hnotin. rewrite E. now apply in_map.
    + exfalso. apply Hnotin. rewrite <- E. now apply in_map.
Qed.

Lemma id_lt_next_id (s : DB) (x : Booking.t) :
  In x (bookings s) -> Booking.id x < next_id s.
Proof.
  unfold next_id. induction (bookings s) as [|a l IH]; cbn [map fold_right In]; intros H.
  - contradiction.
  - destruct H as [<-|H]; [lia | specialize (IH H); lia].
Qed.

Lemma map_id_db_update (l : list Booking.t) (b : Booking.t) :
  map Booking.id (map (fun x => if Booking.id x =? Booking.id b then b else x) l)
  = map Booking.id l.
Proof.
  rewrite map_map. apply map_ext. intros x.
  destruct (Booking.id x =? Booking.id b) eqn:E; [|reflexivity].
  apply Z.eqb_eq in E. now rewrite E.
Qed.

Lemma overlap_sym (a b : Booking.t) : overlap a b -> overlap b a.
Proof. unfold overlap. tauto. Qed.

(** Rewriting one row keeps the invariant when the new row, if active, clears
    every other active row of its room. *)
Lemma db_update_Inv (s : DB) (b : Booking.t) :
  Inv s ->
  (is_active b = true ->
   forall y, In y (bookings s) -> Booking.id y <> Booking.id b ->
     Booking.room_id y = Booking.room_id b -> is_active y = true -> ~ overlap b y) ->
  Inv (db_update s b).
Proof.
  intros [Hu Hn] Hb. split; unfold db_update; simpl.
  - unfold unique_ids. now rewrite map_id_db_update.
  - intros x' y' Hx Hy Hid Hroom Ax Ay.
    apply in_map_iff in Hx. destruct Hx as [x [Ex Hx]].
    apply in_map_iff in Hy. destruct Hy as [y [Ey Hy]].
    destruct (Booking.id x =? Booking.id b) eqn:Exb;
      destruct (Booking.id y =? Booking.id b) eqn:Eyb; subst x' y'.
    + congruence.
    + apply Z.eqb_neq in Eyb. apply Hb; auto.
    + apply Z.eqb_neq in Exb. intros Ho. apply overlap_sym in Ho.
      revert Ho. apply Hb; auto.
    + apply Hn; auto.
Qed.

(** Appending a row keeps the invariant under the same condition. *)
Lemma db_add_Inv (s : DB) (b : Booking.t) :
  Inv s ->
  (is_active b = true ->
   forall y, In y (bookings s) ->
     Booking.room_id y = Booking.room_id b -> is_active y = true -> ~ overlap b y) ->
  Inv (db_add s b).
Proof.
  intros [Hu Hn] Hb. split; unfold db_add; simpl.
  - unfold unique_ids. rewrite map_app. simpl.
    assert (Hfresh : ~ In (next_id s) (map Booking.id (bookings s))).
    { intros H. apply in_map_iff in H. destruct H as [x [E Hx]].
      apply id_lt_next_id in Hx. lia. }
    clear Hb Hn. unfold unique_ids in Hu.
    induction (bookings s) as [|a l IH]; simpl in *.
    + constructor; [tauto | constructor].
    + inversion Hu; subst. constructor.
      * rewrite in_app_iff. simpl. intros [H|[H|[]]]; [tauto|].
        apply Hfresh. now left.
      * apply IH; auto.
  - intros x y Hx Hy Hid Hroom Ax Ay.
    apply in_app_iff in Hx. apply in_app_iff in Hy. simpl in Hx, Hy.
    destruct Hx as [Hx|[<-|[]]], Hy as [Hy|[<-|[]]].
    + apply Hn; auto.
    + intros Ho. apply overlap_sym in Ho. revert Ho.
      change (~ overlap b x). apply Hb; auto.
    + change (~ overlap b y). apply Hb; auto.
    + congruence.
Qed.

Lemma conflicts_with_false (f : BookingForm) (y : Booking.t) :
  conflicts_with f y = false ->
  Booking.room_id y = f_room_id f -> is_active y = true ->
  ~ (f_check_in f < Booking.check_out y /\ Booking.check_in y < f_check_out f).
Proof.
  unfold conflicts_with, is_active. intros H Hroom Hact [H1 H2].
  apply Z.eqb_eq in Hroom. rewrite Hroom, Hact in H. simpl in H.
  apply andb_false_iff in H. destruct H as [H|H].
  - apply Z.ltb_ge in H. lia.
  - rewrite Z.gtb_ltb in H. apply Z.ltb_ge in H. lia.
Qed.

Lemma Inv_at_most_one (s : DB) : Inv s -> at_most_one_per_night s.
Proof.
  intros [Hu Hn] room d x y Hx Hy Rx Ry Ax Ay Cx Cy.
  destruct (Z.eq_dec (Booking.id x) (Booking.id y)) as [E|E].
  - now apply (unique_ids_eq (bookings s)).
  - exfalso. apply (Hn x y); auto; try congruence.
    unfold overlap, covers in *. lia.
Qed.

(** ** Each route keeps the invariant *)

Lemma new_booking_Inv now s f : Inv s -> Inv (fst (new_booking now s f)).
Proof.
  intros HI. unfold new_booking.
  destruct (f_check_out f <=? f_check_in f); [exact HI|].
  destruct (first (filter (conflicts_with f) (bookings s))) as [c|] eqn:Ec.
  - destruct (Booking_guest s c); exact HI.
  - destruct (compute_amount s transient _) as [a|]; [|exact HI].
    cbn [fst]. apply db_add_Inv; [exact HI|].
    intros _ y Hy Hroom Hact. unfold overlap. cbn.
    apply conflicts_with_false; auto.
    eapply first_filter_none; eauto.
Qed.

Lemma booking_edit_Inv s i f : Inv s -> Inv (fst (booking_edit s i f)).
Proof.
  intros HI. unfold booking_edit.
  destruct (get_booking s i) as [b|] eqn:Eb; [|exact HI].
  apply get_booking_some in Eb. destruct Eb as [Hb Hid].
  destruct (f_check_out f <=? f_check_in f); [exact HI|].
  match goal with |- context [first ?l] => destruct (first l) as [c|] eqn:Ec end.
  - destruct (Booking_guest s c); exact HI.
  - destruct (compute_amount s persistent _) as [a|]; [|exact HI].
    cbn [fst]. apply db_update_Inv; [exact HI|].
    cbn. intros _ y Hy Hne Hroom Hact.
    apply conflicts_with_false; auto.
    pose proof (first_filter_none _ _ Ec y Hy) as Hf. cbn in Hf.
    rewrite Hid in Hne. apply Z.eqb_neq in Hne. now rewrite Hne in Hf.
Qed.

Lemma booking_checkin_Inv s i : Inv s -> Inv (fst (booking_checkin s i)).
Proof.
  intros HI. unfold booking_checkin.
  destruct (get_booking s i) as [b|] eqn:Eb; [|exact HI].
  apply get_booking_some in Eb. destruct Eb as [Hb Hid].
  destruct (Booking.status b) eqn:Es; cbn; try exact HI.
  apply db_update_Inv; [exact HI|].
  cbn. intros _ y Hy Hne Hroom Hact Ho.
  destruct HI as [_ Hn]. apply (Hn b y); auto.
  unfold is_active. now rewrite Es.
Qed.

Lemma booking_checkout_Inv today s i : Inv s -> Inv (fst (booking_checkout today s i)).
Proof.
  intros HI. unfold booking_checkout.
  destruct (get_booking s i) as [b|] eqn:Eb; [|exact HI].
  destruct (negb _); [exact HI|].
  destruct (compute_amount s persistent _) as [a|]; [|exact HI].
  cbn [fst]. apply db_update_Inv; [exact HI|].
  cbn. discriminate.
Qed.

Lemma booking_cancel_Inv s i : Inv s -> Inv (fst (booking_cancel s i)).
Proof.
  intros HI. unfold booking_cancel.
  destruct (get_booking s i) as [b|] eqn:Eb; [|exact HI].
  destruct (status_in _ _); [exact HI|].
  cbn [fst]. apply db_update_Inv; [exact HI|].
  cbn. discriminate.
Qed.

Lemma handle_Inv s r : Inv s -> Inv (fst (handle s r)).
Proof.
  destruct r; cbn [handle];
    auto using new_booking_Inv, booking_edit_Inv, booking_checkin_Inv,
               booking_checkout_Inv, booking_cancel_Inv.
Qed.

Lemma run_Inv rs : forall s, Inv s -> Inv (run s rs).
Proof.
  induction rs as [|r rs IH]; intros s HI; cbn; [exact HI|].
  apply IH. now apply handle_Inv.
Qed.

(** C2. From a booking table whose rows have distinct ids and whose active
    ([reservado], [checkin]) bookings of one room never overlap, every sequence
    of create, edit, check-in, check-out and cancel requests leads to such a
    table again, and in it at most one active booking covers a given room on a
    given date. *)
Theorem no_overlap_preserved (s : DB) (rs : list Request) :
  Inv s -> Inv (run s rs) /\ at_most_one_per_night (run s rs).
Proof.
  intros HI. pose proof (run_Inv rs s HI) as H.
  split; [exact H | now apply Inv_at_most_one].
Qed.

Lemma Inv_sample_db : Inv sample_db.
Proof.
  split.
  - unfold unique_ids. cbn. repeat constructor; cbn; intuition discriminate.
  - intros x y Hx Hy Hid Hroom Ax Ay [H1 H2]. cbn in Hx, Hy.
    destruct Hx as [<-|[<-|[<-|[]]]], Hy as [<-|[<-|[<-|[]]]];
      cbn in *; try congruence; try discriminate; lia.
Qed.

Lemma no_overlap_preserved_witness :
  Inv sample_db
  /\ Inv (run sample_db sample_requests)
  /\ at_most_one_per_night (run sample_db sample_requests).
Proof.
  split; [exact Inv_sample_db|].
  apply (no_overlap_preserved sample_db sample_requests). exact Inv_sample_db.
Defined.

(** ** Create booking *)

Lemma new_booking_invalid_range now s f :
  f_check_out f <= f_check_in f ->
  new_booking now s f = (s, Redirect InvalidDateRange).
Proof.
  intros H. unfold new_booking.
  apply Z.leb_le in H. now rewrite H.
Qed.

(** With a valid range and no conflict the handler builds the booking and
    raises in [compute_amount]: the new object is transient, its [room] is
    [None]. Nothing is added. *)
Lemma new_booking_available_raises now s f :
  f_check_in f < f_check_out f ->
  filter (conflicts_with f) (bookings s) = [] ->
  new_booking now s f = (s, Abort500).
Proof.
  intros H Hc. unfold new_booking.
  apply Z.leb_gt in H. rewrite H, Hc. reflexivity.
Qed.

Lemma new_booking_never_adds now s f : fst (new_booking now s f) = s.
Proof.
  unfold new_booking.
  destruct (f_check_out f <=? f_check_in f); [reflexivity|].
  destruct (first _) as [c|]; [destruct (Booking_guest s c)|]; reflexivity.
Qed.

(** C1. Scenario A on a fresh database (room 101 at 110.00, no booking yet,
    2024-03-10 to 2024-03-12): the range is valid, the conflict query is empty
    and room 1 exists with rate 11000 cents, yet the request ends in a 500 and
    the booking table stays empty, where a booking of 22000 cents in status
    [reservado] was to be stored. A request with [check_out <= check_in] is
    answered with [InvalidDateRange] and stores nothing, as claimed. *)
Theorem new_booking_scenario_A_raises :
  f_check_in scenario_A < f_check_out scenario_A
  /\ filter (conflicts_with scenario_A) (bookings fresh_db) = []
  /\ option_map Room.rate (get_room fresh_db (f_room_id scenario_A)) = Some 11000
  /\ new_booking 0 fresh_db scenario_A = (fresh_db, Abort500)
  /\ new_booking 0 fresh_db (mkForm 1 1 (ymd 2024 3 12) (ymd 2024 3 12) None)
     = (fresh_db, Redirect InvalidDateRange).
Proof. repeat split; reflexivity. Qed.

(** The conflict query rejects exactly the half-open overlaps. *)
Lemma conflicts_with_iff (f : BookingForm) (x : Booking.t) :
  conflicts_with f x = true <->
  Booking.room_id x = f_room_id f /\ is_active x = true
  /\ Booking.check_in x < f_check_out f /\ f_check_in f < Booking.check_out x.
Proof.
  unfold conflicts_with, is_active.
  rewrite !andb_true_iff, Z.eqb_eq, Z.ltb_lt, Z.gtb_ltb, Z.ltb_lt. tauto.
Qed.

Lemma touching_is_no_conflict (f : BookingForm) (x : Booking.t) :
  Booking.check_out x = f_check_in f \/ Booking.check_in x = f_check_out f ->
  conflicts_with f x = false.
Proof.
  intros H. destruct (conflicts_with f x) eqn:E; [|reflexivity].
  apply conflicts_with_iff in E. lia.
Qed.

Lemma new_booking_overlap_rejected now s f x :
  f_check_in f < f_check_out f ->
  In x (bookings s) -> conflicts_with f x = true ->
  exists c, first (filter (conflicts_with f) (bookings s)) = Some c
    /\ conflicts_with f c = true
    /\ new_booking now s f =
       (s, match Booking_guest s c with
           | Some g => Redirect (RoomUnavailable (Guest.name g))
           | None => Abort500
           end).
Proof.
  intros H Hx Hc. unfold new_booking.
  apply Z.leb_gt in H. rewrite H.
  destruct (first _) as [c|] eqn:Ec.
  - exists c. apply first_filter_some in Ec as Hc'. destruct Hc' as [_ Hc'].
    repeat split; auto. now destruct (Booking_guest s c).
  - pose proof (first_filter_none _ _ Ec x Hx). congruence.
Qed.

(** C7. With [booking_A] (room 101, 2024-03-10 to 2024-03-12, [reservado],
    guest Ana) stored: a request for 03-11 to 03-13 is refused with
    [RoomUnavailable] naming Ana; a request that starts on 03-12, or one that
    ends on 03-10, passes the conflict query (no row matches) but the handler
    then raises in [compute_amount] and nothing is stored, where the booking
    was to be created. *)
Theorem new_booking_touching_raises :
  new_booking 0 one_booking_db scenario_B
    = (one_booking_db, Redirect (RoomUnavailable "Ana"))
  /\ filter (conflicts_with touching_after) (bookings one_booking_db) = []
  /\ new_booking 0 one_booking_db touching_after = (one_booking_db, Abort500)
  /\ filter (conflicts_with touching_before) (bookings one_booking_db) = []
  /\ new_booking 0 one_booking_db touching_before = (one_booking_db, Abort500).
Proof. repeat split; reflexivity. Qed.

(** C4, as stated, fails: with [booking_A] (Ana, check-in 03-10) stored before
    [booking_B] (Bruno, check-in 03-12) and a request for 03-11 to 03-13 that
    conflicts with both, the first conflict by descending check-in is Bruno's
    but the reply names Ana. *)
Lemma conflict_not_by_check_in_desc :
  ~ (forall now s f c g,
        f_check_in f < f_check_out f ->
        conflict_by_check_in_desc f (bookings s) = Some c ->
        Booking_guest s c = Some g ->
        snd (new_booking now s f) = Redirect (RoomUnavailable (Guest.name g))).
Proof.
  intros H.
  specialize (H 0 sample_db scenario_B booking_B
                (Guest.mk 2 "Bruno" None None None)).
  cbn in H. specialize (H eq_refl eq_refl eq_refl). discriminate H.
Qed.

(** C4, amended. When the conflict query of a create request with a valid
    range returns rows, the request is refused with [RoomUnavailable] naming
    the guest of the first conflicting row in the scan order of the table (the
    query has no [ORDER BY]), and nothing is stored. *)
Theorem new_booking_conflict_first_row now s f c rest g :
  f_check_in f < f_check_out f ->
  filter (conflicts_with f) (bookings s) = c :: rest ->
  Booking_guest s c = Some g ->
  new_booking now s f = (s, Redirect (RoomUnavailable (Guest.name g))).
Proof.
  intros H Hc Hg. unfold new_booking.
  apply Z.leb_gt in H. rewrite H, Hc. cbn. now rewrite Hg.
Qed.

Lemma new_booking_conflict_first_row_witness :
  new_booking 0 sample_db scenario_B
  = (sample_db, Redirect (RoomUnavailable "Ana")).
Proof.
  apply (new_booking_conflict_first_row 0 sample_db scenario_B
           booking_A [booking_B] (Guest.mk 1 "Ana" None None None));
    [reflexivity | reflexivity | reflexivity].
Defined.

(** ** Transitions *)

Lemma get_booking_db_update s i b b' :
  get_booking s i = Some b -> Booking.id b' = i ->
  get_booking (db_update s b') i = Some b'.
Proof.
  unfold get_booking, db_update. cbn [bookings]. intros H <-.
  induction (bookings s) as [|x l IH]; cbn in *; [discriminate|].
  destruct (Booking.id x =? Booking.id b') eqn:Ex.
  - now rewrite Z.eqb_refl.
  - rewrite Ex. auto.
Qed.

Lemma get_booking_db_update_other s j b' :
  j <> Booking.id b' ->
  get_booking (db_update s b') j = get_booking s j.
Proof.
  unfold get_booking, db_update. cbn [bookings]. intros Hj.
  induction (bookings s) as [|x l IH]; cbn; [reflexivity|].
  destruct (Booking.id x =? Booking.id b') eqn:Ex.
  - apply Z.eqb_eq in Ex. rewrite Ex.
    apply Z.eqb_neq in Hj. rewrite Z.eqb_sym in Hj. now rewrite Hj.
  - now rewrite IH.
Qed.

Lemma compute_amount_persistent s b r :
  get_room s (Booking.room_id b) = Some r ->
  compute_amount s persistent b = Some (Room.rate r * Booking.nights b).
Proof.
  unfold compute_amount, Booking_room. intros ->.
  destruct (Room.rate r =? 0) eqn:E; [|reflexivity].
  apply Z.eqb_eq in E. now rewrite E.
Qed.

Lemma booking_checkout_ok today s i b r :
  get_booking s i = Some b -> Booking.status b = checkin ->
  get_room s (Booking.room_id b) = Some r ->
  booking_checkout today s i
  = (db_update s (checked_out b r today), Redirect CheckoutDone).
Proof.
  intros Hb Hs Hr. unfold booking_checkout. rewrite Hb, Hs. cbn [Status_eqb negb].
  rewrite (compute_amount_persistent s _ r) by exact Hr. reflexivity.
Qed.

(** C5. Check-out of a stored booking: from [checkin], with the room of the
    booking on file, the row is rewritten with [check_out] set to the current
    date, [total_amount] set to the room rate times the nights of the adjusted
    stay and [status] set to [checkout], every other column kept; from any
    other status the reply is [InvalidTransition] and the database is
    unchanged. *)
Theorem booking_checkout_spec today s i b :
  get_booking s i = Some b ->
  (Booking.status b = checkin ->
   forall r, get_room s (Booking.room_id b) = Some r ->
     booking_checkout today s i
       = (db_update s (checked_out b r today), Redirect CheckoutDone)
     /\ get_booking (db_update s (checked_out b r today)) i
        = Some (checked_out b r today)
     /\ Booking.total_amount (checked_out b r today)
        = Room.rate r * Booking.nights (checked_out b r today))
  /\ (Booking.status b <> checkin ->
      booking_checkout today s i = (s, Redirect InvalidTransition)).
Proof.
  intros Hb. split.
  - intros Hs r Hr. split; [now apply booking_checkout_ok|]. split.
    + apply get_booking_db_update with (b := b); [exact Hb|].
      apply get_booking_some in Hb. tauto.
    + reflexivity.
  - intros Hs. unfold booking_checkout. rewrite Hb.
    destruct (Booking.status b); try reflexivity. congruence.
Qed.

Lemma booking_checkout_spec_witness :
  booking_checkout (ymd 2024 3 13) sample_db 2
    = (db_update sample_db (checked_out booking_B room_101 (ymd 2024 3 13)),
       Redirect CheckoutDone)
  /\ get_booking (db_update sample_db (checked_out booking_B room_101 (ymd 2024 3 13))) 2
     = Some (Booking.mk 2 1 2 (ymd 2024 3 12) (ymd 2024 3 13) checkout None 11000 0)
  /\ booking_checkout (ymd 2024 3 13) sample_db 1
     = (sample_db, Redirect InvalidTransition).
Proof.
  destruct (booking_checkout_spec (ymd 2024 3 13) sample_db 2 booking_B eq_refl)
    as [H _].
  destruct (H eq_refl room_101 eq_refl) as [H1 [H2 _]].
  destruct (booking_checkout_spec (ymd 2024 3 13) sample_db 1 booking_A eq_refl)
    as [_ H'].
  split; [exact H1 | split; [exact H2 | apply H'; discriminate]].
Defined.

(** C6. Check-in of a stored booking: from [reservado] the row gets status
    [checkin]; from any other status the reply is [InvalidTransition] and the
    database is unchanged; in particular a second check-in after a successful
    one is refused and changes nothing. *)
Theorem booking_checkin_spec s i b :
  get_booking s i = Some b ->
  (Booking.status b = reservado ->
     booking_checkin s i
       = (db_update s (Booking.set_status b checkin), Redirect CheckinDone)
     /\ booking_checkin (fst (booking_checkin s i)) i
        = (fst (booking_checkin s i), Redirect InvalidTransition))
  /\ (Booking.status b <> reservado ->
      booking_checkin s i = (s, Redirect InvalidTransition)).
Proof.
  intros Hb. split.
  - intros Hs.
    assert (E : booking_checkin s i
                = (db_update s (Booking.set_status b checkin), Redirect CheckinDone)).
    { unfold booking_checkin. now rewrite Hb, Hs. }
    split; [exact E|]. rewrite E. cbn [fst].
    unfold booking_checkin at 1.
    rewrite (get_booking_db_update s i b (Booking.set_status b checkin) Hb).
    + reflexivity.
    + apply get_booking_some in Hb. tauto.
  - intros Hs. unfold booking_checkin. rewrite Hb.
    destruct (Booking.status b); try reflexivity. congruence.
Qed.

Lemma booking_checkin_spec_witness :
  booking_checkin sample_db 1
    = (db_update sample_db (Booking.set_status booking_A checkin),
       Redirect CheckinDone)
  /\ booking_checkin (fst (booking_checkin sample_db 1)) 1
     = (fst (booking_checkin sample_db 1), Redirect InvalidTransition)
  /\ booking_checkin sample_db 2 = (sample_db, Redirect InvalidTransition).
Proof.
  destruct (booking_checkin_spec sample_db 1 booking_A eq_refl) as [H _].
  destruct (H eq_refl) as [H1 H2].
  destruct (booking_checkin_spec sample_db 2 booking_B eq_refl) as [_ H'].
  split; [exact H1 | split; [exact H2 | apply H'; discriminate]].
Defined.

(** C9. A check-out performed on a date on or before the booking's
    [check_in] stores a [check_out] not after [check_in] and a [total_amount]
    of exactly one night at the room rate. *)
Theorem booking_checkout_early today s i b r :
  get_booking s i = Some b -> Booking.status b = checkin ->
  get_room s (Booking.room_id b) = Some r ->
  today <= Booking.check_in b ->
  exists b',
    booking_checkout today s i = (db_update s b', Redirect CheckoutDone)
    /\ get_booking (fst (booking_checkout today s i)) i = Some b'
    /\ Booking.status b' = checkout
    /\ Booking.check_in b' = Booking.check_in b
    /\ Booking.check_out b' = today
    /\ Booking.check_out b' <= Booking.check_in b'
    /\ Booking.nights b' = 1
    /\ Booking.total_amount b' = Room.rate r * 1.
Proof.
  intros Hb Hs Hr Hd. exists (checked_out b r today).
  rewrite (booking_checkout_ok today s i b r Hb Hs Hr). cbn [fst].
  repeat split.
  - apply get_booking_db_update with (b := b); [exact Hb|].
    apply get_booking_some in Hb. tauto.
  - exact Hd.
  - unfold Booking.nights. cbn. lia.
  - cbn. f_equal. lia.
Qed.

Lemma booking_checkout_early_witness :
  exists b',
    booking_checkout (ymd 2024 3 11) sample_db 2
      = (db_update sample_db b', Redirect CheckoutDone)
    /\ get_booking (fst (booking_checkout (ymd 2024 3 11) sample_db 2)) 2 = Some b'
    /\ Booking.status b' = checkout
    /\ Booking.check_in b' = Booking.check_in booking_B
    /\ Booking.check_out b' = ymd 2024 3 11
    /\ Booking.check_out b' <= Booking.check_in b'
    /\ Booking.nights b' = 1
    /\ Booking.total_amount b' = 11000 * 1.
Proof.
  apply (booking_checkout_early (ymd 2024 3 11) sample_db 2 booking_B room_101);
    [reflexivity | reflexivity | reflexivity | vm_compute; discriminate].
Defined.

Lemma same_but_status_set_status b st : same_but_status b (Booking.set_status b st).
Proof. unfold same_but_status. cbn. tauto. Qed.

Lemma Forall2_map_r {A} (P : A -> A -> Prop) (g : A -> A) (l : list A) :
  (forall x, In x l -> P x (g x)) -> Forall2 P l (map g l).
Proof.
  induction l as [|a l IH]; cbn; intros H; constructor; auto.
Qed.

(** A status write on row [b] leaves every column but [status] of every row. *)
Lemma db_update_status_frame s i b st :
  unique_ids (bookings s) -> get_booking s i = Some b ->
  Forall2 (fun x x' => same_but_status x x' /\ (Booking.id x <> i -> x' = x))
          (bookings s) (bookings (db_update s (Booking.set_status b st))).
Proof.
  intros Hu Hb. apply get_booking_some in Hb. destruct Hb as [Hin Hid].
  unfold db_update. cbn [bookings]. apply Forall2_map_r. intros x Hx. cbn.
  destruct (Booking.id x =? Booking.id b) eqn:E.
  - apply Z.eqb_eq in E.
    assert (x = b) by (now apply (unique_ids_eq (bookings s))). subst x.
    split; [apply same_but_status_set_status | congruence].
  - split; [|reflexivity]. unfold same_but_status. tauto.
Qed.

(** C10. A check-in or a cancellation that succeeds changes nothing but the
    [status] column of the booking addressed: the rooms and guests tables are
    the same, every row keeps its id, room, guest, dates, notes, amount and
    creation time, and every other row is the same row. *)
Theorem status_transitions_frame s i s' :
  unique_ids (bookings s) ->
  booking_checkin s i = (s', Redirect CheckinDone)
  \/ booking_cancel s i = (s', Redirect BookingCancelled) ->
  rooms s' = rooms s /\ guests s' = guests s
  /\ Forall2 (fun x x' => same_but_status x x' /\ (Booking.id x <> i -> x' = x))
             (bookings s) (bookings s').
Proof.
  intros Hu [H|H].
  - unfold booking_checkin in H.
    destruct (get_booking s i) as [b|] eqn:Hb; [|discriminate].
    destruct (negb _); inversion H; subst s'.
    repeat split. now apply db_update_status_frame.
  - unfold booking_cancel in H.
    destruct (get_booking s i) as [b|] eqn:Hb; [|discriminate].
    destruct (status_in _ _); inversion H; subst s'.
    repeat split. now apply db_update_status_frame.
Qed.

Lemma status_transitions_frame_witness :
  rooms (fst (booking_cancel sample_db 2)) = rooms sample_db
  /\ guests (fst (booking_cancel sample_db 2)) = guests sample_db
  /\ Forall2 (fun x x' => same_but_status x x' /\ (Booking.id x <> 2 -> x' = x))
             (bookings sample_db) (bookings (fst (booking_cancel sample_db 2))).
Proof.
  apply (status_transitions_frame sample_db 2 (fst (booking_cancel sample_db 2))).
  - exact (proj1 Inv_sample_db).
  - right. reflexivity.
Defined.

(** ** Period report *)

Lemma truediv_pos a b : b > 0 -> truediv a b <> None.
Proof.
  intros H. unfold truediv.
  destruct (b =? 0) eqn:E; [apply Z.eqb_eq in E; lia | discriminate].
Qed.

(** The division is guarded: the figures are always produced. *)
Lemma report_figures_total s period : report_figures s period <> None.
Proof.
  unfold report_figures. destruct period as [[a b]|]; [|discriminate].
  cbv zeta. destruct (_ >? 0) eqn:E; [|discriminate].
  rewrite Z.gtb_ltb in E. apply Z.ltb_lt in E.
  match goal with |- context [truediv ?x ?y] =>
    pose proof (truediv_pos x y) as H; destruct (truediv x y) end;
    [discriminate | exfalso; apply H; [lia | reflexivity]].
Qed.

(** C8. With no room on file, or with a period whose end is not after its
    start, or with the period reset after a rejected range, the figures are
    produced (no division is attempted) and the occupancy rate is 0. *)
Theorem report_rate_zero s period :
  rooms s = []
  \/ match period with
     | None => True
     | Some (start_date, end_date) => end_date <= start_date
     end ->
  exists revenue, report_figures s period = Some (revenue, 0%Q).
Proof.
  intros H. unfold report_figures. destruct period as [[a b]|]; [|eauto].
  cbv zeta.
  assert (E : ((b - a) * Z.of_nat (List.length (rooms s)) >? 0) = false).
  { rewrite Z.gtb_ltb. apply Z.ltb_ge. destruct H as [H|H].
    - rewrite H. cbn. lia.
    - pose proof (Nat2Z.is_nonneg (List.length (rooms s))). nia. }
  rewrite E. eauto.
Qed.

Lemma report_rate_zero_witness :
  (exists revenue,
      report_figures no_rooms_db (Some (ymd 2024 3 1, ymd 2024 4 1))
      = Some (revenue, 0%Q))
  /\ (exists revenue,
         report_figures sample_db (Some (ymd 2024 3 10, ymd 2024 3 10))
         = Some (revenue, 0%Q)).
Proof.
  split.
  - apply (report_rate_zero no_rooms_db (Some (ymd 2024 3 1, ymd 2024 4 1))).
    left. reflexivity.
  - apply (report_rate_zero sample_db (Some (ymd 2024 3 10, ymd 2024 3 10))).
    right. vm_compute. discriminate.
Defined.

(** Rendering after a reset raises: the template formats a period that is
    [None]. *)
Lemma reports_reset_period_raises strptime today s d1 d2 fl :
  report_period strptime today d1 d2 = (None, fl) ->
  reports strptime today s d1 d2 = Report500 fl.
Proof. intros H. unfold reports. rewrite H. reflexivity. Qed.

(** C3. When both dates of a report request are given and one fails to
    parse, or the end is not after the start, the handler flashes one
    validation message and resets the period to [None] instead of the current
    month; the page is then rendered with that period and the request ends in
    a 500, where the report of the current month was to be returned. *)
Theorem reports_rejected_range_raises strptime today s d1 d2 :
  truthy (Some d1) = true -> truthy (Some d2) = true ->
  strptime d1 = None \/ strptime d2 = None
  \/ (exists a b, strptime d1 = Some a /\ strptime d2 = Some b /\ b <= a) ->
  exists msg,
    (msg = ReportInvalidDates \/ msg = ReportInvalidRange)
    /\ report_period strptime today (Some d1) (Some d2) = (None, [msg])
    /\ reports strptime today s (Some d1) (Some d2) = Report500 [msg].
Proof.
  intros T1 T2 H.
  assert (Hp : exists msg,
             (msg = ReportInvalidDates \/ msg = ReportInvalidRange)
             /\ report_period strptime today (Some d1) (Some d2) = (None, [msg])).
  { unfold report_period. rewrite T1, T2. cbn [andb].
    destruct (strptime d1) as [a|] eqn:E1.
    - destruct (strptime d2) as [b|] eqn:E2.
      + destruct H as [H|[H|[a' [b' [Ha [Hb Hle]]]]]]; try discriminate.
        inversion Ha; inversion Hb; subst a' b'.
        apply Z.leb_le in Hle. rewrite Hle.
        exists ReportInvalidRange. split; [now right | reflexivity].
      + exists ReportInvalidDates. split; [now left | reflexivity].
    - exists ReportInvalidDates. split; [now left | reflexivity]. }
  destruct Hp as [msg [Hm Hp]]. exists msg.
  split; [exact Hm|]. split; [exact Hp|].
  now apply reports_reset_period_raises.
Qed.

Lemma reports_rejected_range_raises_witness :
  exists msg,
    (msg = ReportInvalidDates \/ msg = ReportInvalidRange)
    /\ report_period Calendar.iso_date (ymd 2024 3 20)
                     (Some "2024-03-10"%string) (Some "2024-03-01"%string)
       = (None, [msg])
    /\ reports Calendar.iso_date (ymd 2024 3 20) sample_db
               (Some "2024-03-10"%string) (Some "2024-03-01"%string)
       = Report500 [msg].
Proof.
  apply (reports_rejected_range_raises Calendar.iso_date (ymd 2024 3 20) sample_db
           "2024-03-10"%string "2024-03-01"%string);
    [reflexivity | reflexivity |].
  right. right. exists (ymd 2024 3 10), (ymd 2024 3 1).
  repeat split. vm_compute. discriminate.
Defined.

(** The sibling path renders: the same request without dates gets the page
    of March 2024. *)
Lemma reports_without_dates_renders :
  reports Calendar.iso_date (ymd 2024 3 20) sample_db None None
  = ReportPage [] (ymd 2024 3 1) (ymd 2024 4 1) 80000 (600 # 682).
Proof. reflexivity. Qed.

(** * Ordered queries *)

Lemma insert_by_perm {A} (le : A -> A -> bool) (x : A) (l : list A) :
  Permutation (insert_by le x l) (x :: l).
Proof.
  induction l as [|y l IH]; cbn; [reflexivity|].
  destruct (le x y); [reflexivity|].
  rewrite IH. apply perm_swap.
Qed.

Lemma order_by_perm {A} (le : A -> A -> bool) (l : list A) :
  Permutation (order_by le l) l.
Proof.
  induction l as [|x l IH]; cbn; [reflexivity|].
  rewrite insert_by_perm. now constructor.
Qed.

Lemma order_by_In {A} (le : A -> A -> bool) (l : list A) (x : A) :
  In x (order_by le l) <-> In x l.
Proof.
  split; apply Permutation_in; [|symmetry]; apply order_by_perm.
Qed.

Section Sorting.
Context {A : Type} (le : A -> A -> bool).
Hypothesis le_total : forall x y, le x y = true \/ le y x = true.
Hypothesis le_trans : forall x y z, le x y = true -> le y z = true -> le x z = true.

Lemma insert_by_sorted (x : A) (l : list A) :
  StronglySorted (fun a b => le a b = true) l ->
  StronglySorted (fun a b => le a b = true) (insert_by le x l).
Proof.
  induction 1 as [|y l Hl IH Hy]; cbn.
  - constructor; constructor.
  - destruct (le x y) eqn:E.
    + constructor; [now constructor|].
      constructor; [assumption|].
      rewrite Forall_forall in *. eauto.
    + constructor; [assumption|].
      assert (Hyx : le y x = true) by (destruct (le_total x y); congruence).
      rewrite Forall_forall in *. intros z Hz.
      apply (Permutation_in _ (insert_by_perm le x l)) in Hz.
      destruct Hz as [<-|Hz]; auto.
Qed.

Lemma order_by_sorted (l : list A) :
  StronglySorted (fun a b => le a b = true) (order_by le l).
Proof.
  induction l as [|x l IH]; cbn; [constructor | now apply insert_by_sorted].
Qed.
End Sorting.

Lemma check_in_asc_total x y : check_in_asc x y = true \/ check_in_asc y x = true.
Proof. unfold check_in_asc. rewrite !Z.leb_le. lia. Qed.

Lemma check_in_asc_trans x y z :
  check_in_asc x y = true -> check_in_asc y z = true -> check_in_asc x z = true.
Proof. unfold check_in_asc. rewrite !Z.leb_le. lia. Qed.

Lemma check_in_desc_total x y : check_in_desc x y = true \/ check_in_desc y x = true.
Proof. unfold check_in_desc. rewrite !Z.leb_le. lia. Qed.

Lemma check_in_desc_trans x y z :
  check_in_desc x y = true -> check_in_desc y z = true -> check_in_desc x z = true.
Proof. unfold check_in_desc. rewrite !Z.leb_le. lia. Qed.

Lemma first_order_by_none {A} (le : A -> A -> bool) (l : list A) :
  first (order_by le l) = None <-> l = [].
Proof.
  split.
  - intros H. destruct (order_by le l) as [|a l'] eqn:E; [|discriminate].
    pose proof (order_by_perm le l) as P. rewrite E in P.
    now apply Permutation_nil in P.
  - intros ->. reflexivity.
Qed.

Lemma first_order_by_some {A} (le : A -> A -> bool) (l : list A) (a : A) :
  first (order_by le l) = Some a -> In a l.
Proof.
  intros H. apply (order_by_In le). destruct (order_by le l); inversion H.
  now left.
Qed.

(** * Room status *)

Lemma occupies_iff room_id d b :
  occupies room_id d b = true <->
  Booking.room_id b = room_id /\ is_active b = true /\ covers b d.
Proof.
  unfold occupies, is_active, covers, active.
  rewrite !andb_true_iff, Z.eqb_eq, Z.leb_le, Z.gtb_ltb, Z.ltb_lt. tauto.
Qed.

Lemma room_status_livre today s room reference :
  room_status today s room reference = "livre"%string <->
  ~ exists b, In b (bookings s)
              /\ Booking.room_id b = Room.id room
              /\ is_active b = true
              /\ covers b (reference_or today reference).
Proof.
  unfold room_status. fold (reference_or today reference).
  set (d := reference_or today reference).
  destruct (first _) as [a|] eqn:E.
  - split.
    + destruct (Status_eqb _ _); discriminate.
    + intros H. exfalso. apply H. exists a.
      apply first_order_by_some in E. apply filter_In in E.
      destruct E as [Hin Ho]. apply occupies_iff in Ho. tauto.
  - split; [|reflexivity]. intros _ [b [Hin [Hr [Ha Hc]]]].
    apply first_order_by_none in E.
    assert (Hb : In b (filter (occupies (Room.id room) d) (bookings s))).
    { apply filter_In. split; [assumption|]. apply occupies_iff. tauto. }
    rewrite E in Hb. contradiction.
Qed.

(** X1. A room is reported [livre] exactly when no [reservado] or [checkin]
    booking of that room covers the reference date (today when none is
    given). *)
Theorem room_status_livre_iff today s room reference :
  room_status today s room reference = "livre"%string <->
  ~ exists b, In b (bookings s)
              /\ Booking.room_id b = Room.id room
              /\ is_active b = true
              /\ covers b (reference_or today reference).
Proof. apply room_status_livre. Qed.

Lemma status_eqb_eq a b : Status_eqb a b = true <-> a = b.
Proof. destruct a, b; cbn; split; congruence. Qed.

Lemma is_active_cases b :
  is_active b = true <-> Booking.status b = reservado \/ Booking.status b = checkin.
Proof.
  unfold is_active. destruct (Booking.status b); cbn; split; intros H;
    try tauto; try discriminate; destruct H; discriminate.
Qed.

Lemma room_status_covering today s room reference st :
  Inv s ->
  st = checkin \/ st = reservado ->
  (room_status today s room reference = Status_str st <->
   exists b, In b (bookings s)
             /\ Booking.room_id b = Room.id room
             /\ Booking.status b = st
             /\ covers b (reference_or today reference)).
Proof.
  intros HI Hst. pose proof (Inv_at_most_one s HI) as Hone.
  unfold room_status. fold (reference_or today reference).
  set (d := reference_or today reference).
  destruct (first _) as [a|] eqn:E.
  - apply first_order_by_some in E. apply filter_In in E.
    destruct E as [Hin Ho]. apply occupies_iff in Ho.
    destruct Ho as [Hr [Ha Hc]].
    assert (Huniq : forall b, In b (bookings s) ->
              Booking.room_id b = Room.id room -> is_active b = true ->
              covers b d -> b = a).
    { intros b Hb Hbr Hba Hbc.
      apply (Hone (Room.id room) d b a); auto. }
    split.
    + intros H. exists a.
      split; [exact Hin|]. split; [exact Hr|]. split; [|exact Hc].
      apply is_active_cases in Ha.
      destruct (Booking.status a) eqn:Es;
        destruct Hst as [-> | ->]; cbn in H; try discriminate H;
        try reflexivity; destruct Ha; discriminate.
    + intros [b [Hb [Hbr [Hbs Hbc]]]].
      assert (b = a).
      { apply Huniq; auto. apply is_active_cases.
        destruct Hst; subst st; tauto. }
      subst b. rewrite Hbs. destruct Hst; subst st; reflexivity.
  - apply first_order_by_none in E. split.
    + destruct Hst; subst st; discriminate.
    + intros [b [Hb [Hbr [Hbs Hbc]]]]. exfalso.
      assert (Hf : In b (filter (occupies (Room.id room) d) (bookings s))).
      { apply filter_In. split; [assumption|]. apply occupies_iff.
        repeat split; try tauto; try apply Hbc.
        apply is_active_cases. destruct Hst; subst st; tauto. }
      rewrite E in Hf. contradiction.
Qed.

(** X2. On a table with distinct ids and no overlap among active bookings
    of a room, the status of a room is that of the one active booking that
    covers the reference date: [checkin] exactly when a checked-in booking of
    the room covers it, [reservado] exactly when a reserved one does. *)
Theorem room_status_of_covering_booking today s room reference st :
  Inv s ->
  st = checkin \/ st = reservado ->
  (room_status today s room reference = Status_str st <->
   exists b, In b (bookings s)
             /\ Booking.room_id b = Room.id room
             /\ Booking.status b = st
             /\ covers b (reference_or today reference)).
Proof. apply room_status_covering. Qed.

Lemma room_status_of_covering_booking_witness :
  room_status (ymd 2024 3 13) sample_db room_101 None = Status_str checkin <->
  exists b, In b (bookings sample_db)
            /\ Booking.room_id b = Room.id room_101
            /\ Booking.status b = checkin
            /\ covers b (reference_or (ymd 2024 3 13) None).
Proof.
  apply (room_status_of_covering_booking (ymd 2024 3 13) sample_db room_101 None
           checkin Inv_sample_db).
  left. reflexivity.
Defined.

(** * Dashboard *)

(** A filtered query keeps keys distinct. *)
Lemma filter_keeps_keys_distinct {Row Key} (key : Row -> Key)
      (keep : Row -> bool) (rows : list Row) :
  NoDup (map key rows) -> NoDup (map key (filter keep rows)).
Proof.
  intros Hkeys. induction rows as [|row rows IH]; cbn; [constructor|].
  cbn in Hkeys. inversion Hkeys as [|? ? Hfresh Hrest]; subst.
  destruct (keep row); cbn; [|now apply IH].
  constructor; [|now apply IH].
  intros Hin. apply Hfresh. apply in_map_iff in Hin.
  destruct Hin as [x [E Hx]]. apply filter_In in Hx.
  rewrite <- E. apply in_map. tauto.
Qed.

Lemma NoDup_map_pairwise {A B C} (f : A -> B) (g : A -> C) (l : list A) :
  NoDup (map f l) ->
  (forall x y, In x l -> In y l -> f x <> f y -> g x <> g y) ->
  NoDup (map g l).
Proof.
  induction l as [|a l IH]; cbn; intros H Hp; [constructor|].
  inversion H as [|? ? Hn Hd]; subst. constructor.
  - intros Hin. apply in_map_iff in Hin. destruct Hin as [x [E Hx]].
    apply (Hp x a); auto. intros Ef. apply Hn. rewrite <- Ef. now apply in_map.
  - apply IH; auto.
Qed.

Lemma in_house_iff d b :
  in_house d b = true <-> Booking.status b = checkin /\ covers b d.
Proof.
  unfold in_house, covers.
  rewrite !andb_true_iff, Z.leb_le, Z.gtb_ltb, Z.ltb_lt.
  destruct (Booking.status b); cbn; intuition discriminate.
Qed.

Lemma in_house_rooms_NoDup s d :
  Inv s -> NoDup (map Booking.room_id (filter (in_house d) (bookings s))).
Proof.
  intros HI. pose proof (Inv_at_most_one s HI) as Hone. destruct HI as [Hu _].
  apply NoDup_map_pairwise with (f := Booking.id).
  - now apply filter_keeps_keys_distinct.
  - intros x y Hx Hy Hid Hroom. apply Hid. f_equal.
    apply filter_In in Hx. apply filter_In in Hy.
    destruct Hx as [Hx Px], Hy as [Hy Py].
    apply in_house_iff in Px. apply in_house_iff in Py.
    apply (Hone (Booking.room_id x) d x y); auto; try tauto;
      apply is_active_cases; tauto.
Qed.

(** X3. On a table with distinct ids, no overlap among active bookings of a
    room and every booking referring to a room on file, the occupancy the
    dashboard shows never exceeds the number of rooms. *)
Theorem dashboard_occupied_le_total today s :
  Inv s -> rooms_on_file s ->
  0 <= Dashboard.occupied (View.dashboard today s)
    <= Dashboard.total_rooms (View.dashboard today s).
Proof.
  intros HI Hr. cbn. split; [lia|].
  apply inj_le.
  rewrite <- (length_map Booking.room_id), <- (length_map Room.id (rooms s)).
  apply NoDup_incl_length; [now apply in_house_rooms_NoDup|].
  intros i Hi. apply in_map_iff in Hi. destruct Hi as [b [<- Hb]].
  apply filter_In in Hb. apply Hr. tauto.
Qed.

Lemma rooms_on_file_sample_db : rooms_on_file sample_db.
Proof.
  intros b Hb. cbn in Hb. destruct Hb as [<-|[<-|[<-|[]]]]; cbn; tauto.
Qed.

Lemma dashboard_occupied_le_total_witness :
  0 <= Dashboard.occupied (View.dashboard (ymd 2024 3 13) sample_db)
    <= Dashboard.total_rooms (View.dashboard (ymd 2024 3 13) sample_db).
Proof.
  apply (dashboard_occupied_le_total (ymd 2024 3 13) sample_db
           Inv_sample_db rooms_on_file_sample_db).
Defined.

Lemma report_period_default strptime today d1 d2 :
  truthy d1 && truthy d2 = false ->
  report_period strptime today d1 d2
  = (Some (Calendar.replace_day1 today,
           Calendar.replace_day1 (Calendar.replace_day1 today + 32)), []).
Proof.
  intros H. unfold report_period.
  destruct d1 as [s1|], d2 as [s2|]; try reflexivity. now rewrite H.
Qed.

(** X4. A report requested with a date missing or blank is the report of the
    current month, first day of the month to first day of the next, with no
    message, and its revenue is the revenue of the month on the dashboard of
    the same day. *)
Theorem dashboard_revenue_is_default_report strptime today s d1 d2 :
  truthy d1 && truthy d2 = false ->
  exists rate,
    reports strptime today s d1 d2
    = ReportPage [] (Calendar.replace_day1 today)
                 (Calendar.replace_day1 (Calendar.replace_day1 today + 32))
                 (Dashboard.revenue (View.dashboard today s)) rate.
Proof.
  intros H. unfold reports. rewrite (report_period_default _ _ _ _ H).
  unfold report_figures. cbv zeta. cbn [Dashboard.revenue View.dashboard].
  destruct (_ >? 0) eqn:E0; [|eauto].
  match goal with |- context [truediv ?x ?y] =>
    pose proof (truediv_pos x y) as Hp; destruct (truediv x y) end.
  - eauto.
  - exfalso. apply Hp; [|reflexivity].
    rewrite Z.gtb_ltb in E0. apply Z.ltb_lt in E0. lia.
Qed.

Lemma dashboard_revenue_is_default_report_witness :
  exists rate,
    reports Calendar.iso_date (ymd 2024 3 20) sample_db
            (Some "2024-03-01"%string) (Some ""%string)
    = ReportPage [] (Calendar.replace_day1 (ymd 2024 3 20))
                 (Calendar.replace_day1 (Calendar.replace_day1 (ymd 2024 3 20) + 32))
                 (Dashboard.revenue (View.dashboard (ymd 2024 3 20) sample_db)) rate.
Proof.
  apply (dashboard_revenue_is_default_report Calendar.iso_date (ymd 2024 3 20)
           sample_db (Some "2024-03-01"%string) (Some ""%string)).
  reflexivity.
Defined.

Lemma StronglySorted_app_le {A} (R : A -> A -> Prop) (l1 l2 : list A) :
  StronglySorted R (l1 ++ l2) ->
  forall x y, In x l1 -> In y l2 -> R x y.
Proof.
  induction l1 as [|a l1 IH]; cbn; intros H x y Hx Hy; [contradiction|].
  inversion H as [|? ? Hs Hf]; subst.
  destruct Hx as [<-|Hx]; [|eauto].
  rewrite Forall_forall in Hf. apply Hf. apply in_or_app. now right.
Qed.

Lemma StronglySorted_app_l {A} (R : A -> A -> Prop) (l1 l2 : list A) :
  StronglySorted R (l1 ++ l2) -> StronglySorted R l1.
Proof.
  induction l1 as [|a l1 IH]; cbn; intros H; [constructor|].
  inversion H as [|? ? Hs Hf]; subst. constructor; [auto|].
  rewrite Forall_forall in *. intros x Hx. apply Hf. apply in_or_app. now left.
Qed.

Lemma StronglySorted_weaken {A} (R R' : A -> A -> Prop) (l : list A) :
  StronglySorted R l -> (forall a b, R a b -> R' a b) -> StronglySorted R' l.
Proof.
  intros H HR. induction H as [|a l Hs IH Hf]; constructor; auto.
  rewrite Forall_forall in *. auto.
Qed.

(** What [limit n] of an ordered query returns: at most [n] rows of the
    query, in order, none of them after a row that was left out. *)
Lemma limit_order_by_spec {A} (le : A -> A -> bool) (n : nat) (l : list A) :
  (forall x y, le x y = true \/ le y x = true) ->
  (forall x y z, le x y = true -> le y z = true -> le x z = true) ->
  let u := limit n (order_by le l) in
  (List.length u <= n)%nat
  /\ (forall x, In x u -> In x l)
  /\ StronglySorted (fun a b => le a b = true) u
  /\ ((List.length l <= n)%nat -> Permutation u l)
  /\ (forall x y, In x u -> In y l -> ~ In y u -> le x y = true).
Proof.
  intros Htot Htrans u. unfold u, limit.
  pose proof (order_by_sorted le Htot Htrans l) as Hs.
  rewrite <- (firstn_skipn n (order_by le l)) in Hs.
  repeat split.
  - apply firstn_le_length.
  - intros x Hx. apply (order_by_In le).
    rewrite <- (firstn_skipn n (order_by le l)). apply in_or_app. now left.
  - eapply StronglySorted_app_l. exact Hs.
  - intros Hn. rewrite firstn_all2; [apply order_by_perm|].
    now rewrite (Permutation_length (order_by_perm le l)).
  - intros x y Hx Hy Hny.
    apply (StronglySorted_app_le _ _ _ Hs x y Hx).
    apply (order_by_In le) in Hy.
    rewrite <- (firstn_skipn n (order_by le l)) in Hy.
    apply in_app_or in Hy. tauto.
Qed.

(** X5. The upcoming check-ins of the dashboard are at most five bookings of
    the table, all [reservado] with check-in today or later, listed by
    ascending check-in, and every such booking that is left out checks in no
    earlier than each one listed. *)
Theorem dashboard_upcoming_spec today s :
  let u := Dashboard.upcoming (View.dashboard today s) in
  (List.length u <= 5)%nat
  /\ (forall x, In x u ->
        In x (bookings s) /\ Booking.status x = reservado
        /\ today <= Booking.check_in x)
  /\ StronglySorted (fun a b => Booking.check_in a <= Booking.check_in b) u
  /\ (forall x y, In x u -> In y (bookings s) ->
        Booking.status y = reservado -> today <= Booking.check_in y ->
        ~ In y u -> Booking.check_in x <= Booking.check_in y).
Proof.
  cbn [Dashboard.upcoming View.dashboard].
  match goal with |- context [limit 5 (order_by _ ?l)] => set (q := l) end.
  destruct (limit_order_by_spec check_in_asc 5 q
              check_in_asc_total check_in_asc_trans) as [H1 [H2 [H3 [_ H5]]]].
  assert (Hq : forall x, In x q <->
             In x (bookings s) /\ Booking.status x = reservado
             /\ today <= Booking.check_in x).
  { intros x. unfold q. rewrite filter_In, andb_true_iff, status_eqb_eq.
    rewrite Z.geb_leb, Z.leb_le. tauto. }
  set (u0 := limit 5 (order_by check_in_asc q)) in *.
  repeat split.
  - exact H1.
  - apply Hq, H2, H.
  - apply Hq, H2, H.
  - apply Hq, H2, H.
  - apply (StronglySorted_weaken _ _ u0 H3).
    intros a b. unfold check_in_asc. apply Z.leb_le.
  - intros x y Hx Hy Hs Hd Hn.
    apply Z.leb_le. apply (H5 x y Hx); [|exact Hn]. apply Hq. tauto.
Qed.

Lemma filter_map_comm {A B} (p : B -> bool) (g : A -> B) (l : list A) :
  filter p (map g l) = map g (filter (fun x => p (g x)) l).
Proof.
  induction l as [|a l IH]; cbn; [reflexivity|].
  destruct (p (g a)); cbn; now rewrite IH.
Qed.

Lemma Permutation_filter_length {A} (p : A -> bool) (l l' : list A) :
  Permutation l l' -> List.length (filter p l) = List.length (filter p l').
Proof.
  induction 1 as [|a l l' _ IH|a b l|l1 l2 l3 _ IH1 _ IH2]; cbn.
  - reflexivity.
  - destruct (p a); cbn; now rewrite IH.
  - destruct (p a), (p b); reflexivity.
  - now rewrite IH1.
Qed.

(** X6. On a table with distinct ids, no overlap among active bookings of a
    room, every booking referring to a room on file and distinct room ids,
    the occupancy on the dashboard is the number of rooms that the room map
    shows as [checkin] on the same day. *)
Theorem dashboard_occupied_matches_room_map today s :
  Inv s -> rooms_on_file s -> NoDup (map Room.id (rooms s)) ->
  Dashboard.occupied (View.dashboard today s)
  = Z.of_nat (List.length
                (filter (fun it => String.eqb (snd it) "checkin")
                        (View.rooms today s))).
Proof.
  intros HI Hr Hn. cbn [Dashboard.occupied View.dashboard]. f_equal.
  unfold View.rooms. rewrite filter_map_comm, length_map. cbn [snd].
  rewrite (Permutation_filter_length _ _ _ (order_by_perm _ (rooms s))).
  set (O := filter (in_house today) (bookings s)).
  set (Rc := filter (fun r => String.eqb (room_status today s r None) "checkin")
                    (rooms s)).
  rewrite <- (length_map Booking.room_id O), <- (length_map Room.id Rc).
  apply Nat.le_antisymm; apply NoDup_incl_length.
  - now apply in_house_rooms_NoDup.
  - intros i Hi. apply in_map_iff in Hi. destruct Hi as [b [<- Hb]].
    apply filter_In in Hb. destruct Hb as [Hb Hh]. apply in_house_iff in Hh.
    pose proof (Hr b Hb) as Hroom. apply in_map_iff in Hroom.
    destruct Hroom as [r [Er Hrin]]. rewrite <- Er.
    apply in_map. apply filter_In. split; [assumption|].
    apply String.eqb_eq.
    apply (room_status_covering today s r None checkin HI (or_introl eq_refl)).
    exists b. cbn. repeat split; try tauto; try congruence; apply Hh.
  - now apply filter_keeps_keys_distinct.
  - intros i Hi. apply in_map_iff in Hi. destruct Hi as [r [<- Hrc]].
    apply filter_In in Hrc. destruct Hrc as [Hrin Hst].
    apply String.eqb_eq in Hst.
    apply (room_status_covering today s r None checkin HI (or_introl eq_refl)) in Hst.
    destruct Hst as [b [Hb [Hbr [Hbs Hbc]]]]. rewrite <- Hbr.
    apply in_map. apply filter_In. split; [assumption|].
    apply in_house_iff. split; assumption.
Qed.

Lemma dashboard_occupied_matches_room_map_witness :
  Dashboard.occupied (View.dashboard (ymd 2024 3 13) sample_db)
  = Z.of_nat (List.length
                (filter (fun it => String.eqb (snd it) "checkin")
                        (View.rooms (ymd 2024 3 13) sample_db))).
Proof.
  apply (dashboard_occupied_matches_room_map (ymd 2024 3 13) sample_db
           Inv_sample_db rooms_on_file_sample_db).
  cbn. repeat constructor; cbn; intuition discriminate.
Defined.

(** * Transitions across requests *)

Lemma get_booking_db_add s x i b :
  get_booking s i = Some b -> get_booking (db_add s x) i = Some b.
Proof.
  unfold get_booking, db_add. cbn [bookings].
  induction (bookings s) as [|a l IH]; cbn; [discriminate|].
  destruct (Booking.id a =? i); auto.
Qed.

Lemma reaches_refl a : reaches a a.
Proof. now left. Qed.

Lemma reaches_trans a b c : reaches a b -> reaches b c -> reaches a c.
Proof.
  unfold reaches. destruct a, b, c; intuition congruence.
Qed.

(** Effect of a successful write on the lookup of any id. *)
Lemma get_booking_after_update s i b j b0 b1 :
  get_booking s i = Some b -> get_booking s j = Some b0 ->
  Booking.id b1 = j ->
  (i = j /\ b = b0 /\ get_booking (db_update s b1) i = Some b1)
  \/ (i <> j /\ get_booking (db_update s b1) i = Some b).
Proof.
  intros Hi Hj Hid. destruct (Z.eq_dec i j) as [E|E].
  - left. subst i. rewrite Hi in Hj. inversion Hj; subst b0.
    repeat split; auto. now apply get_booking_db_update with (b := b).
  - right. split; [assumption|].
    rewrite get_booking_db_update_other; [assumption | congruence].
Qed.

Lemma handle_keeps_booking s r i b :
  get_booking s i = Some b ->
  exists b', get_booking (fst (handle s r)) i = Some b'
             /\ reaches (Booking.status b) (Booking.status b')
             /\ Booking.created_at b' = Booking.created_at b.
Proof.
  intros Hb.
  assert (Hsame : exists b', get_booking s i = Some b'
             /\ reaches (Booking.status b) (Booking.status b')
             /\ Booking.created_at b' = Booking.created_at b).
  { exists b. repeat split; auto. apply reaches_refl. }
  destruct r as [now f|j f|j|today j|j]; cbn [handle].
  - unfold new_booking.
    destruct (f_check_out f <=? f_check_in f); [exact Hsame|].
    destruct (first _) as [c|]; [destruct (Booking_guest s c); exact Hsame|].
    destruct (compute_amount s transient _); [|exact Hsame].
    cbn [fst]. exists b. repeat split; auto using reaches_refl.
    now apply get_booking_db_add.
  - unfold booking_edit.
    destruct (get_booking s j) as [b0|] eqn:Hj; [|exact Hsame].
    destruct (f_check_out f <=? f_check_in f); [exact Hsame|].
    destruct (first _) as [c|]; [destruct (Booking_guest s c); exact Hsame|].
    destruct (compute_amount s persistent _) as [a|]; [|exact Hsame].
    cbn [fst].
    match goal with |- context [db_update s ?x] => set (b1 := x) end.
    destruct (get_booking_after_update s i b j b0 b1 Hb Hj) as [[_ [E H]]|[_ H]].
    + apply get_booking_some in Hj. tauto.
    + subst b0. exists b1. repeat split; auto. apply reaches_refl.
    + exists b. repeat split; auto. apply reaches_refl.
  - unfold booking_checkin.
    destruct (get_booking s j) as [b0|] eqn:Hj; [|exact Hsame].
    destruct (Booking.status b0) eqn:Es; cbn [Status_eqb negb]; try exact Hsame.
    cbn [fst].
    match goal with |- context [db_update s ?x] => set (b1 := x) end.
    destruct (get_booking_after_update s i b j b0 b1 Hb Hj) as [[_ [E H]]|[_ H]].
    + apply get_booking_some in Hj. tauto.
    + subst b0. exists b1. repeat split; auto. rewrite Es. right. now left.
    + exists b. repeat split; auto. apply reaches_refl.
  - unfold booking_checkout.
    destruct (get_booking s j) as [b0|] eqn:Hj; [|exact Hsame].
    destruct (Booking.status b0) eqn:Es; cbn [Status_eqb negb]; try exact Hsame.
    destruct (compute_amount s persistent _) as [a|]; [|exact Hsame].
    cbn [fst].
    match goal with |- context [db_update s ?x] => set (b1 := x) end.
    destruct (get_booking_after_update s i b j b0 b1 Hb Hj) as [[_ [E H]]|[_ H]].
    + apply get_booking_some in Hj. tauto.
    + subst b0. exists b1. repeat split; auto. rewrite Es. right. right. cbn. tauto.
    + exists b. repeat split; auto. apply reaches_refl.
  - unfold booking_cancel.
    destruct (get_booking s j) as [b0|] eqn:Hj; [|exact Hsame].
    destruct (Booking.status b0) eqn:Es; cbn [status_in existsb Status_eqb orb];
      try exact Hsame; cbn [fst];
      match goal with |- context [db_update s ?x] => set (b1 := x) end;
      (destruct (get_booking_after_update s i b j b0 b1 Hb Hj) as [[_ [E H]]|[_ H]];
       [ apply get_booking_some in Hj; tauto
       | subst b0; exists b1; repeat split; auto; rewrite Es; cbn; unfold reaches; tauto
       | exists b; repeat split; auto; apply reaches_refl ]).
Qed.

(** X7. Across any sequence of create, edit, check-in, check-out and cancel
    requests a stored booking stays on file under its id, keeps its creation
    time, and its status only moves forward: from [reservado] to any status,
    from [checkin] to [checkout] or [cancelado], and never away from
    [checkout] or [cancelado]. *)
Theorem status_moves_forward rs : forall s i b,
  get_booking s i = Some b ->
  exists b', get_booking (run s rs) i = Some b'
             /\ reaches (Booking.status b) (Booking.status b')
             /\ Booking.created_at b' = Booking.created_at b
             /\ (Booking.status b = checkout \/ Booking.status b = cancelado ->
                 Booking.status b' = Booking.status b).
Proof.
  induction rs as [|r rs IH]; intros s i b Hb; cbn [run fold_left].
  - exists b. repeat split; auto using reaches_refl.
  - destruct (handle_keeps_booking s r i b Hb) as [b1 [H1 [R1 C1]]].
    destruct (IH _ i b1 H1) as [b2 [H2 [R2 [C2 _]]]].
    exists b2. split; [exact H2|].
    assert (R : reaches (Booking.status b) (Booking.status b2))
      by (eapply reaches_trans; eauto).
    repeat split; [exact R | congruence |].
    intros Ht. unfold reaches in R. destruct R as [R|[R|[R _]]];
      [congruence | destruct Ht; congruence | destruct Ht; congruence].
Qed.

Lemma status_moves_forward_witness :
  exists b', get_booking (run sample_db sample_requests) 2 = Some b'
             /\ reaches (Booking.status booking_B) (Booking.status b')
             /\ Booking.created_at b' = Booking.created_at booking_B
             /\ (Booking.status booking_B = checkout
                 \/ Booking.status booking_B = cancelado ->
                 Booking.status b' = Booking.status booking_B).
Proof.
  apply (status_moves_forward sample_requests sample_db 2 booking_B).
  reflexivity.
Defined.

(** X8. A request that is not answered with a success message changes
    nothing: a refused, unknown or failing create, edit, check-in, check-out
    or cancel leaves the database as it was. *)
Theorem refused_request_changes_nothing s r :
  succeeded (snd (handle s r)) = false -> fst (handle s r) = s.
Proof.
  destruct r as [now f|j f|j|today j|j]; cbn [handle].
  - intros _. apply new_booking_never_adds.
  - unfold booking_edit.
    destruct (get_booking s j); [|reflexivity].
    destruct (f_check_out f <=? f_check_in f); [reflexivity|].
    destruct (first _) as [c|]; [destruct (Booking_guest s c); reflexivity|].
    destruct (compute_amount s persistent _); [discriminate|reflexivity].
  - unfold booking_checkin.
    destruct (get_booking s j); [|reflexivity].
    destruct (negb _); [reflexivity|discriminate].
  - unfold booking_checkout.
    destruct (get_booking s j); [|reflexivity].
    destruct (negb _); [reflexivity|].
    destruct (compute_amount s persistent _); [discriminate|reflexivity].
  - unfold booking_cancel.
    destruct (get_booking s j); [|reflexivity].
    destruct (status_in _ _); [reflexivity|discriminate].
Qed.

Lemma refused_request_changes_nothing_witness :
  fst (handle sample_db (GET_booking_checkout (ymd 2024 3 13) 1)) = sample_db.
Proof.
  apply (refused_request_changes_nothing sample_db
           (GET_booking_checkout (ymd 2024 3 13) 1)).
  reflexivity.
Defined.

(** X9. Cancelling a stored booking: from [reservado] and from [checkin] the
    row gets status [cancelado] and a second cancellation is then refused
    without effect; from [checkout] and [cancelado] the reply is
    [InvalidTransition] and the database is unchanged. *)
Theorem booking_cancel_spec s i b :
  get_booking s i = Some b ->
  (Booking.status b = reservado \/ Booking.status b = checkin ->
     booking_cancel s i
       = (db_update s (Booking.set_status b cancelado), Redirect BookingCancelled)
     /\ booking_cancel (fst (booking_cancel s i)) i
        = (fst (booking_cancel s i), Redirect InvalidTransition))
  /\ (Booking.status b = checkout \/ Booking.status b = cancelado ->
      booking_cancel s i = (s, Redirect InvalidTransition)).
Proof.
  intros Hb. split.
  - intros Hs.
    assert (E : booking_cancel s i
                = (db_update s (Booking.set_status b cancelado),
                   Redirect BookingCancelled)).
    { unfold booking_cancel. rewrite Hb. destruct Hs as [-> | ->]; reflexivity. }
    split; [exact E|]. rewrite E. cbn [fst]. unfold booking_cancel at 1.
    rewrite (get_booking_db_update s i b (Booking.set_status b cancelado) Hb).
    + reflexivity.
    + apply get_booking_some in Hb. tauto.
  - intros Hs. unfold booking_cancel. rewrite Hb.
    destruct Hs as [-> | ->]; reflexivity.
Qed.

Lemma booking_cancel_spec_witness :
  booking_cancel sample_db 2
    = (db_update sample_db (Booking.set_status booking_B cancelado),
       Redirect BookingCancelled)
  /\ booking_cancel (fst (booking_cancel sample_db 2)) 2
     = (fst (booking_cancel sample_db 2), Redirect InvalidTransition)
  /\ booking_cancel sample_db 3 = (sample_db, Redirect InvalidTransition).
Proof.
  destruct (booking_cancel_spec sample_db 2 booking_B eq_refl) as [H _].
  destruct (H (or_intror eq_refl)) as [H1 H2].
  destruct (booking_cancel_spec sample_db 3 booking_C eq_refl) as [_ H'].
  split; [exact H1 | split; [exact H2 | apply H'; left; reflexivity]].
Defined.

(** X10. The booking page offers check-in and cancel for a [reservado]
    booking, check-out for a [checkin] booking and only the edit link for a
    [checkout] or [cancelado] one; every transition link it offers is accepted
    when followed on the same database, the check-out link provided the room
    of the booking is on file. *)
Theorem offered_links_succeed today s i f b links :
  View.booking_detail s i = PageOk (b, links) ->
  (forall l, In l links -> l <> LinkEdit ->
     (l = LinkCheckout -> get_room s (Booking.room_id b) <> None) ->
     succeeded (snd (handle s (follow today i f l))) = true)
  /\ (Booking.status b = reservado -> links = [LinkCheckin; LinkCancel; LinkEdit])
  /\ (Booking.status b = checkin -> links = [LinkCheckout; LinkEdit])
  /\ (Booking.status b = checkout \/ Booking.status b = cancelado ->
      links = [LinkEdit]).
Proof.
  unfold View.booking_detail. intros H.
  destruct (negb (sqlite_int i)); [discriminate|].
  destruct (get_booking s i) as [b0|] eqn:Hb; [|discriminate].
  inversion H; subst b0 links. clear H. repeat split.
  - intros l Hl Hne Hroom.
    destruct (Booking.status b) eqn:Es; cbn in Hl;
      repeat (destruct Hl as [<-|Hl]; try congruence); try contradiction;
      cbn [follow handle].
    + unfold booking_checkin. now rewrite Hb, Es.
    + unfold booking_cancel. now rewrite Hb, Es.
    + destruct (get_room s (Booking.room_id b)) as [r|] eqn:Hr;
        [|now elim (Hroom eq_refl)].
      now rewrite (booking_checkout_ok today s i b r Hb Es Hr).
  - intros ->. reflexivity.
  - intros ->. reflexivity.
  - intros [-> | ->]; reflexivity.
Qed.

Lemma offered_links_succeed_witness :
  succeeded (snd (handle sample_db
                    (follow (ymd 2024 3 13) 2 scenario_A LinkCheckout))) = true
  /\ succeeded (snd (handle sample_db
                       (follow (ymd 2024 3 13) 1 scenario_A LinkCancel))) = true
  /\ View.booking_detail sample_db 3 = PageOk (booking_C, [LinkEdit]).
Proof.
  destruct (offered_links_succeed (ymd 2024 3 13) sample_db 2 scenario_A booking_B
              [LinkCheckout; LinkEdit] eq_refl) as [H2 _].
  destruct (offered_links_succeed (ymd 2024 3 13) sample_db 1 scenario_A booking_A
              [LinkCheckin; LinkCancel; LinkEdit] eq_refl) as [H1 _].
  split; [|split].
  - apply H2; [now left | discriminate | discriminate].
  - apply H1; [right; now left | discriminate | discriminate].
  - reflexivity.
Defined.

(** * Edit booking *)

Lemma first_filter_all_false {A} (p : A -> bool) (l : list A) :
  (forall x, In x l -> p x = false) -> first (filter p l) = None.
Proof.
  induction l as [|a l IH]; cbn; intros H; [reflexivity|].
  rewrite (H a) by now left. apply IH. intros x Hx. apply H. now right.
Qed.

Lemma booking_edit_ok s i f b r :
  get_booking s i = Some b ->
  f_check_in f < f_check_out f ->
  (forall x, In x (bookings s) -> Booking.id x <> i -> conflicts_with f x = false) ->
  get_room s (f_room_id f) = Some r ->
  booking_edit s i f = (db_update s (edited b f r), Redirect BookingUpdated).
Proof.
  intros Hb Hd Hc Hr. unfold booking_edit. rewrite Hb.
  apply Z.leb_gt in Hd as Hd'. rewrite Hd'.
  rewrite first_filter_all_false.
  - rewrite (compute_amount_persistent s _ r) by exact Hr.
    unfold edited, Booking.set_total_amount, Booking.nights. cbn.
    rewrite Z.max_l by lia. reflexivity.
  - intros x Hx. destruct (Booking.id x =? i) eqn:E; [reflexivity|].
    apply Z.eqb_neq in E. cbn. now apply Hc.
Qed.

(** X11. Editing a stored booking, with the booking id and the room and
    guest ids of the form within the range the database driver binds,
    check-out after check-in, no other row conflicting and the chosen room on
    file, rewrites the row with the room, guest, dates and notes of the form
    and with the amount set to the room rate times the exact number of days;
    id, status and creation time are kept, whatever the status is, and every
    other row is untouched. *)
Theorem booking_edit_spec s i f b r :
  sqlite_int i = true ->
  sqlite_int (f_room_id f) = true -> sqlite_int (f_guest_id f) = true ->
  get_booking s i = Some b ->
  f_check_in f < f_check_out f ->
  (forall x, In x (bookings s) -> Booking.id x <> i -> conflicts_with f x = false) ->
  get_room s (f_room_id f) = Some r ->
  booking_edit s i f = (db_update s (edited b f r), Redirect BookingUpdated)
  /\ get_booking (fst (booking_edit s i f)) i = Some (edited b f r)
  /\ (forall j, j <> i ->
        get_booking (fst (booking_edit s i f)) j = get_booking s j).
Proof.
  intros _ _ _ Hb Hd Hc Hr.
  rewrite (booking_edit_ok s i f b r Hb Hd Hc Hr). cbn [fst].
  pose proof (get_booking_some s i b Hb) as [_ Hid].
  repeat split.
  - now apply get_booking_db_update with (b := b).
  - intros j Hj. apply get_booking_db_update_other. cbn. congruence.
Qed.

Lemma booking_edit_spec_witness :
  booking_edit sample_db 3 (mkForm 2 1 (ymd 2024 3 2) (ymd 2024 3 5) None)
  = (db_update sample_db
       (edited booking_C (mkForm 2 1 (ymd 2024 3 2) (ymd 2024 3 5) None)
               (Room.mk 2 "102" "Single" 11000)),
     Redirect BookingUpdated)
  /\ get_booking
       (fst (booking_edit sample_db 3 (mkForm 2 1 (ymd 2024 3 2) (ymd 2024 3 5) None)))
       3
     = Some (Booking.mk 3 2 1 (ymd 2024 3 2) (ymd 2024 3 5) checkout None 33000 0)
  /\ (forall j, j <> 3 ->
        get_booking
          (fst (booking_edit sample_db 3
                  (mkForm 2 1 (ymd 2024 3 2) (ymd 2024 3 5) None))) j
        = get_booking sample_db j).
Proof.
  apply (booking_edit_spec sample_db 3
           (mkForm 2 1 (ymd 2024 3 2) (ymd 2024 3 5) None) booking_C
           (Room.mk 2 "102" "Single" 11000));
    [reflexivity | reflexivity | reflexivity
     | reflexivity | reflexivity | | reflexivity].
  intros x Hx Hne. cbn in Hx.
  destruct Hx as [<-|[<-|[<-|[]]]]; [reflexivity | reflexivity | now elim Hne].
Defined.

(** X12. On a table with distinct ids and no overlap among active bookings
    of a room, re-submitting the own room, guest, dates and notes of an active
    booking with check-out after check-in and its room on file is never
    refused as a conflict: the edit succeeds and changes at most the amount of
    that row. *)
Theorem booking_edit_own_data s i b r :
  Inv s -> get_booking s i = Some b -> is_active b = true ->
  Booking.check_in b < Booking.check_out b ->
  get_room s (Booking.room_id b) = Some r ->
  booking_edit s i (form_of b)
  = (db_update s (Booking.set_total_amount b
                    (Room.rate r * (Booking.check_out b - Booking.check_in b))),
     Redirect BookingUpdated).
Proof.
  intros [Hu Hn] Hb Ha Hd Hr.
  pose proof (get_booking_some s i b Hb) as [Hin Hid].
  rewrite (booking_edit_ok s i (form_of b) b r Hb Hd); [reflexivity| |exact Hr].
  intros x Hx Hne. destruct (conflicts_with (form_of b) x) eqn:E; [|reflexivity].
  exfalso. apply conflicts_with_iff in E. cbn in E.
  destruct E as [E1 [E2 [E3 E4]]].
  apply (Hn b x Hin Hx); [congruence | congruence | exact Ha | exact E2 |].
  unfold overlap. lia.
Qed.

Lemma booking_edit_own_data_witness :
  booking_edit sample_db 1 (form_of booking_A)
  = (db_update sample_db
       (Booking.set_total_amount booking_A
          (Room.rate room_101
           * (Booking.check_out booking_A - Booking.check_in booking_A))),
     Redirect BookingUpdated).
Proof.
  apply (booking_edit_own_data sample_db 1 booking_A room_101 Inv_sample_db);
    reflexivity.
Defined.

(** * Report figures *)

Lemma report_figures_revenue s a b :
  exists rate, report_figures s (Some (a, b)) = Some (period_revenue s a b, rate).
Proof.
  unfold report_figures, period_revenue. cbv zeta.
  destruct (_ >? 0) eqn:E0; [|eauto].
  match goal with |- context [truediv ?x ?y] =>
    pose proof (truediv_pos x y) as Hp; destruct (truediv x y) end.
  - eauto.
  - exfalso. apply Hp; [|reflexivity].
    rewrite Z.gtb_ltb in E0. apply Z.ltb_lt in E0. lia.
Qed.

Lemma period_revenue_split s a b c :
  a <= b -> b <= c ->
  period_revenue s a c = period_revenue s a b + period_revenue s b c.
Proof.
  intros Hab Hbc. unfold period_revenue.
  induction (bookings s) as [|x l IH]; cbn [filter map fold_right]; [reflexivity|].
  destruct (Status_eqb (Booking.status x) checkout); cbn [andb]; [|exact IH].
  destruct (Booking.check_out x >=? a) eqn:E1;
    destruct (Booking.check_out x <? c) eqn:E2;
    destruct (Booking.check_out x >=? b) eqn:E3;
    destruct (Booking.check_out x <? b) eqn:E4;
    cbn [andb map fold_right]; rewrite ?IH;
    rewrite ?Z.geb_leb, ?Z.leb_le, ?Z.leb_gt, ?Z.ltb_lt, ?Z.ltb_ge in *; lia.
Qed.

(** X13. Revenue adds up over adjacent periods: for [a <= b <= c] the revenue
    reported for [[a, c)] is the sum of those reported for [[a, b)] and
    [[b, c)]; a check-out is counted in exactly one of the two. *)
Theorem revenue_adjacent_periods s a b c :
  a <= b -> b <= c ->
  exists r1 q1 r2 q2 q3,
    report_figures s (Some (a, b)) = Some (r1, q1)
    /\ report_figures s (Some (b, c)) = Some (r2, q2)
    /\ report_figures s (Some (a, c)) = Some (r1 + r2, q3).
Proof.
  intros Hab Hbc.
  destruct (report_figures_revenue s a b) as [q1 H1].
  destruct (report_figures_revenue s b c) as [q2 H2].
  destruct (report_figures_revenue s a c) as [q3 H3].
  exists (period_revenue s a b), q1, (period_revenue s b c), q2, q3.
  repeat split; auto. now rewrite <- period_revenue_split.
Qed.

Lemma revenue_adjacent_periods_witness :
  exists r1 q1 r2 q2 q3,
    report_figures sample_db (Some (ymd 2024 3 1, ymd 2024 3 5)) = Some (r1, q1)
    /\ report_figures sample_db (Some (ymd 2024 3 5, ymd 2024 4 1)) = Some (r2, q2)
    /\ report_figures sample_db (Some (ymd 2024 3 1, ymd 2024 4 1))
       = Some (r1 + r2, q3).
Proof.
  apply (revenue_adjacent_periods sample_db (ymd 2024 3 1) (ymd 2024 3 5)
           (ymd 2024 4 1)); vm_compute; discriminate.
Defined.

Lemma map_replace_absent (b' : Booking.t) (l : list Booking.t) :
  ~ In (Booking.id b') (map Booking.id l) ->
  map (fun x => if Booking.id x =? Booking.id b' then b' else x) l = l.
Proof.
  induction l as [|x l IH]; cbn; intros H; [reflexivity|].
  destruct (Booking.id x =? Booking.id b') eqn:E.
  - apply Z.eqb_eq in E. exfalso. apply H. now left.
  - f_equal. apply IH. tauto.
Qed.

(** The revenue filter as a function, and the sum it feeds. *)
Lemma period_revenue_update s b b' a c :
  unique_ids (bookings s) -> In b (bookings s) ->
  Booking.id b' = Booking.id b ->
  Booking.status b <> checkout ->
  period_revenue (db_update s b') a c
  = period_revenue s a c
    + (if Status_eqb (Booking.status b') checkout
          && (Booking.check_out b' >=? a) && (Booking.check_out b' <? c)
       then Booking.total_amount b' else 0).
Proof.
  unfold period_revenue, db_update, unique_ids. cbn [bookings].
  intros Hu Hin Hid Hs.
  induction (bookings s) as [|x l IH]; [contradiction|].
  cbn [map] in Hu. inversion Hu as [|? ? Hn Hd]; subst.
  cbn [map filter].
  destruct (Booking.id x =? Booking.id b') eqn:E.
  - apply Z.eqb_eq in E.
    assert (x = b).
    { destruct Hin as [Hin|Hin]; [assumption|].
      exfalso. apply Hn. rewrite E, Hid. now apply in_map. }
    subst x. rewrite map_replace_absent by (now rewrite Hid).
    destruct (Booking.status b) eqn:Es; try congruence; cbn [Status_eqb andb];
      destruct (Status_eqb (Booking.status b') checkout
                && (Booking.check_out b' >=? a) && (Booking.check_out b' <? c));
      cbn [map fold_right]; lia.
  - destruct Hin as [Hin|Hin].
    { subst x. rewrite Hid, Z.eqb_refl in E. discriminate. }
    specialize (IH Hd Hin).
    destruct (Status_eqb (Booking.status x) checkout
              && (Booking.check_out x >=? a) && (Booking.check_out x <? c));
      cbn [map fold_right]; rewrite IH; lia.
Qed.

(** X14. A successful check-out on day [today] raises the revenue of every
    report period that contains [today] by the amount charged, the room rate
    times the nights up to [today] (at least one), and leaves the revenue of
    every other period as it was. *)
Theorem checkout_revenue_attribution today s i b r a c :
  unique_ids (bookings s) ->
  get_booking s i = Some b -> Booking.status b = checkin ->
  get_room s (Booking.room_id b) = Some r ->
  exists rev rate rate',
    report_figures s (Some (a, c)) = Some (rev, rate)
    /\ report_figures (fst (booking_checkout today s i)) (Some (a, c))
       = Some (rev + (if (a <=? today) && (today <? c)
                      then Room.rate r * Z.max (today - Booking.check_in b) 1
                      else 0),
               rate').
Proof.
  intros Hu Hb Hs Hr.
  rewrite (booking_checkout_ok today s i b r Hb Hs Hr). cbn [fst].
  destruct (report_figures_revenue s a c) as [rate H1].
  destruct (report_figures_revenue (db_update s (checked_out b r today)) a c)
    as [rate' H2].
  exists (period_revenue s a c), rate, rate'. split; [exact H1|].
  rewrite H2. do 2 f_equal.
  pose proof (get_booking_some s i b Hb) as [Hin _].
  rewrite (period_revenue_update s b (checked_out b r today) a c Hu Hin eq_refl)
    by congruence.
  cbn. rewrite Z.geb_leb. reflexivity.
Qed.

Lemma checkout_revenue_attribution_witness :
  exists rev rate rate',
    report_figures sample_db (Some (ymd 2024 3 1, ymd 2024 4 1)) = Some (rev, rate)
    /\ report_figures (fst (booking_checkout (ymd 2024 3 13) sample_db 2))
                      (Some (ymd 2024 3 1, ymd 2024 4 1))
       = Some (rev + (if (ymd 2024 3 1 <=? ymd 2024 3 13)
                         && (ymd 2024 3 13 <? ymd 2024 4 1)
                      then Room.rate room_101
                           * Z.max (ymd 2024 3 13 - Booking.check_in booking_B) 1
                      else 0),
               rate').
Proof.
  apply (checkout_revenue_attribution (ymd 2024 3 13) sample_db 2 booking_B
           room_101 (ymd 2024 3 1) (ymd 2024 4 1) (proj1 Inv_sample_db));
    reflexivity.
Defined.

(** ** Occupancy *)

Lemma fold_left_sumZ {A} (f : A -> Z) (l : list A) (z : Z) :
  fold_left (fun acc b => acc + f b) l z = z + sumZ f l.
Proof.
  revert z. induction l as [|x l IH]; intros z; unfold sumZ;
    cbn [fold_left fold_right]; [lia|].
  rewrite IH. unfold sumZ. lia.
Qed.

Lemma occupied_as_nights_within (l : list Booking.t) a e :
  a <= e ->
  (forall x, In x l -> counted x = true ->
     Booking.check_in x <= Booking.check_out x) ->
  sumZ (fun x => Z.min (Booking.check_out x) e - Z.max (Booking.check_in x) a)
       (filter (fun b => status_in [checkin; checkout] (Booking.status b)
                         && (Booking.check_in b <? e)
                         && (Booking.check_out b >? a)) l)
  = sumZ (nights_within a e) (filter counted l).
Proof.
  intros Hae Hwf.
  induction l as [|x l IH]; cbn [filter sumZ fold_right]; [reflexivity|].
  fold (counted x).
  assert (IH' := IH (fun y Hy => Hwf y (or_intror Hy))). clear IH.
  destruct (counted x) eqn:Ec; cbn [andb]; [|exact IH'].
  pose proof (Hwf x (or_introl eq_refl) Ec) as Hw.
  unfold sumZ in *.
  destruct (Booking.check_in x <? e) eqn:E1;
    destruct (Booking.check_out x >? a) eqn:E2;
    cbn [andb fold_right]; rewrite IH'; unfold nights_within;
    rewrite ?Z.gtb_ltb, ?Z.ltb_lt, ?Z.ltb_ge in *; lia.
Qed.

Lemma nights_within_next a e x :
  a <= e -> Booking.check_in x <= Booking.check_out x ->
  nights_within a (e + 1) x
  = nights_within a e x + (if covers_b e x then 1 else 0).
Proof.
  intros Hae Hw. unfold nights_within, covers_b.
  destruct (Booking.check_in x <=? e) eqn:E1;
    destruct (Booking.check_out x >? e) eqn:E2; cbn [andb];
    rewrite ?Z.gtb_ltb, ?Z.leb_le, ?Z.leb_gt, ?Z.ltb_lt, ?Z.ltb_ge in *; lia.
Qed.

Lemma sumZ_nights_within_next (l : list Booking.t) a e :
  a <= e ->
  (forall x, In x l -> Booking.check_in x <= Booking.check_out x) ->
  sumZ (nights_within a (e + 1)) l
  = sumZ (nights_within a e) l + Z.of_nat (List.length (filter (covers_b e) l)).
Proof.
  intros Hae Hwf. induction l as [|x l IH]; [reflexivity|].
  cbn [sumZ fold_right filter]. fold (sumZ (nights_within a (e + 1)) l).
  fold (sumZ (nights_within a e) l).
  rewrite IH by (intros y Hy; apply Hwf; now right).
  rewrite nights_within_next by (auto; apply Hwf; now left).
  destruct (covers_b e x); cbn [List.length]; lia.
Qed.

Lemma covers_b_iff d x : covers_b d x = true <-> covers x d.
Proof.
  unfold covers_b, covers.
  rewrite andb_true_iff, Z.leb_le, Z.gtb_ltb, Z.ltb_lt. tauto.
Qed.

(** At most one counted booking per room covers a night. *)
Lemma counted_covering_le_rooms s d :
  unique_ids (bookings s) -> no_double_count s -> rooms_on_file s ->
  (List.length (filter (covers_b d) (filter counted (bookings s)))
   <= List.length (rooms s))%nat.
Proof.
  intros Hu Hn Hr.
  rewrite <- (length_map Booking.room_id), <- (length_map Room.id (rooms s)).
  apply NoDup_incl_length.
  - apply NoDup_map_pairwise with (f := Booking.id).
    + now do 2 apply filter_keeps_keys_distinct.
    + intros x y Hx Hy Hid Hroom.
      apply filter_In in Hx. destruct Hx as [Hx Cx]. apply filter_In in Hx.
      apply filter_In in Hy. destruct Hy as [Hy Cy]. apply filter_In in Hy.
      apply covers_b_iff in Cx. apply covers_b_iff in Cy.
      apply (Hn x y); try tauto.
      unfold overlap, covers in *. lia.
  - intros i Hi. apply in_map_iff in Hi. destruct Hi as [b [<- Hb]].
    apply filter_In in Hb. destruct Hb as [Hb _]. apply filter_In in Hb.
    apply Hr. tauto.
Qed.

Lemma sumZ_nights_within_bounds s a (n : nat) :
  unique_ids (bookings s) -> no_double_count s -> rooms_on_file s ->
  stays_well_formed s ->
  0 <= sumZ (nights_within a (a + Z.of_nat n)) (filter counted (bookings s))
    <= Z.of_nat n * Z.of_nat (List.length (rooms s)).
Proof.
  intros Hu Hn Hr Hw.
  assert (Hwf : forall x, In x (filter counted (bookings s)) ->
                  Booking.check_in x <= Booking.check_out x).
  { intros x Hx. apply filter_In in Hx. now apply Hw. }
  induction n as [|n IH].
  - rewrite Z.add_0_r. cbn [Z.of_nat].
    assert (E : sumZ (nights_within a a) (filter counted (bookings s)) = 0).
    { clear Hwf. induction (filter counted (bookings s)) as [|x l IHl];
        [reflexivity|].
      cbn [sumZ fold_right]. fold (sumZ (nights_within a a) l). rewrite IHl.
      unfold nights_within. lia. }
    rewrite E. lia.
  - rewrite Nat2Z.inj_succ, <- Z.add_1_r, Z.add_assoc.
    rewrite sumZ_nights_within_next by (auto; lia).
    pose proof (counted_covering_le_rooms s (a + Z.of_nat n) Hu Hn Hr).
    nia.
Qed.

Lemma percent_bounds (occ avail : Z) :
  0 <= occ <= avail -> 0 < avail ->
  (0 <= inject_Z occ / inject_Z avail * 100)%Q
  /\ (inject_Z occ / inject_Z avail * 100 <= 100)%Q.
Proof.
  intros H Hp. destruct avail as [|p|p]; try lia.
  unfold Qle, Qdiv, Qmult, Qinv, inject_Z. cbn [Qnum Qden].
  cbn. split; nia.
Qed.

(** X15. When ids are distinct, no [checkin] or [checkout] booking ends
    before it starts, no two of them overlap in one room and every booking
    refers to a room on file, the occupancy rate of any period lies between 0
    and 100. *)
Theorem occupancy_rate_bounds s a e :
  unique_ids (bookings s) -> no_double_count s -> rooms_on_file s ->
  stays_well_formed s ->
  exists rev rate,
    report_figures s (Some (a, e)) = Some (rev, rate)
    /\ (0 <= rate)%Q /\ (rate <= 100)%Q.
Proof.
  intros Hu Hn Hr Hw. unfold report_figures. cbv zeta.
  destruct (_ >? 0) eqn:E0.
  2:{ eexists _, _. split; [reflexivity|]. split; unfold Qle; cbn; lia. }
  rewrite Z.gtb_ltb in E0. apply Z.ltb_lt in E0.
  assert (Hae : a < e) by nia.
  rewrite fold_left_sumZ, Z.add_0_l.
  rewrite (occupied_as_nights_within (bookings s) a e) by (auto; lia).
  pose proof (sumZ_nights_within_bounds s a (Z.to_nat (e - a)) Hu Hn Hr Hw) as Hb.
  rewrite Z2Nat.id in Hb by lia.
  replace (a + (e - a)) with e in Hb by lia.
  unfold truediv.
  destruct (_ =? 0) eqn:E1; [apply Z.eqb_eq in E1; lia|].
  eexists _, _. split; [reflexivity|].
  apply percent_bounds; [exact Hb | exact E0].
Qed.

Lemma no_double_count_sample_db : no_double_count sample_db.
Proof.
  intros x y Hx Hy Hid Hroom Cx Cy [H1 H2]. cbn in Hx, Hy.
  destruct Hx as [<-|[<-|[<-|[]]]], Hy as [<-|[<-|[<-|[]]]];
    cbn in *; try congruence; try discriminate; lia.
Qed.

Lemma stays_well_formed_sample_db : stays_well_formed sample_db.
Proof.
  intros x Hx _. cbn in Hx.
  destruct Hx as [<-|[<-|[<-|[]]]]; vm_compute; discriminate.
Qed.

Lemma occupancy_rate_bounds_witness :
  exists rev rate,
    report_figures sample_db (Some (ymd 2024 3 1, ymd 2024 4 1)) = Some (rev, rate)
    /\ (0 <= rate)%Q /\ (rate <= 100)%Q.
Proof.
  apply (occupancy_rate_bounds sample_db (ymd 2024 3 1) (ymd 2024 4 1)
           (proj1 Inv_sample_db) no_double_count_sample_db
           rooms_on_file_sample_db stays_well_formed_sample_db).
Defined.

(** X16. The nights of a counted booking inside the period are not clamped:
    when the only [checkin] or [checkout] booking on file ends before it
    starts, with both dates inside the period (as after a check-out performed
    before the check-in date), the occupancy rate reported is negative. *)
Theorem occupancy_rate_negative s a e x :
  rooms s <> [] ->
  filter counted (bookings s) = [x] ->
  a < Booking.check_out x -> Booking.check_out x < Booking.check_in x ->
  Booking.check_in x < e ->
  exists rev rate,
    report_figures s (Some (a, e)) = Some (rev, rate) /\ (rate < 0)%Q.
Proof.
  intros Hrooms Hx H1 H2 H3. unfold report_figures. cbv zeta.
  assert (Hlen : 0 < Z.of_nat (List.length (rooms s))).
  { destruct (rooms s); [congruence | cbn [List.length]; lia]. }
  assert (E0 : ((e - a) * Z.of_nat (List.length (rooms s)) >? 0) = true).
  { rewrite Z.gtb_ltb. apply Z.ltb_lt. nia. }
  rewrite E0. rewrite fold_left_sumZ, Z.add_0_l.
  assert (Ef : filter (fun b => status_in [checkin; checkout] (Booking.status b)
                                && (Booking.check_in b <? e)
                                && (Booking.check_out b >? a)) (bookings s) = [x]).
  { revert Hx. induction (bookings s) as [|y l IH]; cbn [filter]; [discriminate|].
    fold (counted y). destruct (counted y) eqn:Ec; cbn [andb]; [|exact IH].
    intros Hx. inversion Hx; subst y.
    assert (Hl : forall l', filter counted l' = [] ->
              filter (fun b => status_in [checkin; checkout] (Booking.status b)
                               && (Booking.check_in b <? e)
                               && (Booking.check_out b >? a)) l' = []).
    { clear. induction l' as [|z l' IHl]; cbn [filter]; [reflexivity|].
      fold (counted z). destruct (counted z); cbn [andb]; [discriminate|exact IHl]. }
    rewrite (Hl l) by assumption.
    apply Z.ltb_lt in H3. rewrite H3.
    assert (Hg : (Booking.check_out x >? a) = true)
      by (rewrite Z.gtb_ltb; now apply Z.ltb_lt).
    now rewrite Hg. }
  rewrite Ef. unfold sumZ. cbn [fold_right].
  unfold truediv.
  destruct (_ =? 0) eqn:E1; [apply Z.eqb_eq in E1; nia|].
  eexists _, _. split; [reflexivity|].
  set (avail := (e - a) * Z.of_nat (List.length (rooms s))) in *.
  assert (Hav : 0 < avail) by (unfold avail; nia).
  set (occ := Z.min (Booking.check_out x) e - Z.max (Booking.check_in x) a + 0).
  assert (Hocc : occ < 0) by (unfold occ; lia).
  clearbody occ avail. destruct avail as [|p|p]; try lia.
  unfold Qlt, Qdiv, Qmult, Qinv, inject_Z. cbn. nia.
Qed.

Lemma occupancy_rate_negative_witness :
  exists rev rate,
    report_figures early_checkout_db (Some (ymd 2024 3 1, ymd 2024 4 1))
    = Some (rev, rate) /\ (rate < 0)%Q.
Proof.
  apply (occupancy_rate_negative early_checkout_db (ymd 2024 3 1) (ymd 2024 4 1)
           booking_B_left_early);
    [discriminate | reflexivity | reflexivity | reflexivity | reflexivity].
Defined.

(** * The default period *)

Lemma all_days_spec (p : date -> bool) (n : nat) : forall d,
  all_days n d p = true ->
  forall x, d <= x < d + Z.of_nat n -> p x = true.
Proof.
  induction n as [|n IH]; intros d H x Hx; [lia|].
  cbn [all_days] in H. destruct (p d) eqn:E; [|discriminate].
  destruct (Z.eq_dec x d) as [->|Hne]; [assumption|].
  apply (IH (d + 1) H). lia.
Qed.

Lemma month_ok_1970_2199 :
  all_days (Z.to_nat (ymd 2200 1 1 - ymd 1970 1 1)) (ymd 1970 1 1) month_ok = true.
Proof. vm_compute. reflexivity. Qed.

(** X17. On every day from 1970-01-01 to 2199-12-31 the period of a report
    requested with a date missing or blank, which is also the month of the
    dashboard revenue, is the calendar month of that day: it starts on day 1
    of the month of [today], ends on day 1 of the following month, and
    contains [today]. *)
Theorem default_period_is_calendar_month strptime today d1 d2 :
  truthy d1 && truthy d2 = false ->
  ymd 1970 1 1 <= today < ymd 2200 1 1 ->
  exists y m d,
    Calendar.ord2ymd today = (y, m, d)
    /\ 1 <= m <= 12
    /\ report_period strptime today d1 d2
       = (Some (ymd y m 1, first_of_next_month y m), [])
    /\ ymd y m 1 <= today < first_of_next_month y m.
Proof.
  intros Ht Hr. rewrite (report_period_default _ _ _ _ Ht).
  assert (Hok : month_ok today = true).
  { apply (all_days_spec month_ok _ _ month_ok_1970_2199).
    rewrite Z2Nat.id by (vm_compute; discriminate). lia. }
  unfold month_ok in Hok. cbv zeta in Hok.
  destruct (Calendar.ord2ymd today) as [[y m] d].
  exists y, m, d.
  rewrite !andb_true_iff in Hok.
  destruct Hok as [[[[[M1 M2] Hs] He] Hl] Hu].
  apply Z.eqb_eq in Hs. apply Z.eqb_eq in He.
  apply Z.leb_le in M1, M2, Hl. apply Z.ltb_lt in Hu.
  unfold ymd. rewrite <- Hs, <- He. repeat split; auto.
Qed.

Lemma default_period_is_calendar_month_witness :
  exists y m d,
    Calendar.ord2ymd (ymd 2024 12 20) = (y, m, d)
    /\ 1 <= m <= 12
    /\ report_period Calendar.iso_date (ymd 2024 12 20) None None
       = (Some (ymd y m 1, first_of_next_month y m), [])
    /\ ymd y m 1 <= ymd 2024 12 20 < first_of_next_month y m.
Proof.
  apply (default_period_is_calendar_month Calendar.iso_date (ymd 2024 12 20)
           None None);
    [reflexivity | split; [vm_compute; discriminate | reflexivity]].
Defined.

(** * Guests *)

Lemma guest_id_lt_next s g :
  In g (guests s) -> Guest.id g < next_guest_id s.
Proof.
  unfold next_guest_id. induction (guests s) as [|a l IH];
    cbn [map fold_right In]; intros H; [contradiction|].
  destruct H as [<-|H]; [lia | specialize (IH H); lia].
Qed.

Lemma documents_app l1 l2 : documents (l1 ++ l2) = documents l1 ++ documents l2.
Proof. unfold documents. apply flat_map_app. Qed.

Lemma In_documents l d :
  In d (documents l) <-> exists g, In g l /\ Guest.document g = Some d.
Proof.
  unfold documents. rewrite in_flat_map. split.
  - intros [g [Hg Hd]]. exists g. split; [assumption|].
    destruct (Guest.document g); cbn in Hd; [|contradiction].
    destruct Hd as [->|[]]. reflexivity.
  - intros [g [Hg Hd]]. exists g. split; [assumption|]. rewrite Hd. now left.
Qed.

Lemma document_taken_false l skip d :
  document_taken l skip (Some d) = false ->
  forall g, In g l -> Guest.document g = Some d ->
    match skip with Some i => Guest.id g = i | None => False end.
Proof.
  cbn [document_taken]. intros H g Hg Hd.
  assert (Hall : forall x, In x l ->
            match Guest.document x with
            | Some v' => String.eqb d v'
                         && match skip with
                            | Some i => negb (Guest.id x =? i)
                            | None => true
                            end
            | None => false
            end = false).
  { intros x Hx. destruct (existsb_exists
      (fun g => match Guest.document g with
                | Some v' => String.eqb d v'
                             && match skip with
                                | Some i => negb (Guest.id g =? i)
                                | None => true
                                end
                | None => false
                end) l) as [_ Hex].
    match goal with |- ?t = false => destruct t eqn:E; [|reflexivity] end.
    rewrite Hex in H; [discriminate|]. exists x. tauto. }
  specialize (Hall g Hg). rewrite Hd, String.eqb_refl in Hall. cbn in Hall.
  destruct skip as [i|]; [|discriminate].
  apply negb_false_iff, Z.eqb_eq in Hall. exact Hall.
Qed.

Lemma new_guest_ok strip s f : guests_ok s -> guests_ok (fst (new_guest strip s f)).
Proof.
  intros [Hi Hd]. unfold new_guest.
  destruct (g_name f) as [name|]; [|now split].
  match goal with |- context [document_taken ?l ?k ?d] =>
    destruct (document_taken l k d) eqn:E end; [now split|].
  cbn [fst]. split; cbn [guests].
  - rewrite map_app. cbn [map Guest.id].
    apply NoDup_app; [assumption | repeat constructor; cbn; tauto |].
    intros i Hin [<-|[]]. apply in_map_iff in Hin. destruct Hin as [g [Eg Hg]].
    apply guest_id_lt_next in Hg. lia.
  - rewrite documents_app. cbn [Guest.document] in E.
    destruct (or_None _) as [d|] eqn:Ed.
    + unfold documents at 2. cbn. rewrite ?Ed.
      apply NoDup_app; [assumption | repeat constructor; cbn; tauto |].
      intros d' Hin [<-|[]]. apply In_documents in Hin.
      destruct Hin as [g [Hg Hgd]].
      exact (document_taken_false _ None d E g Hg Hgd).
    + unfold documents at 2. cbn. rewrite ?Ed. now rewrite app_nil_r.
Qed.

Lemma guests_replace_absent (g : Guest.t) (l : list Guest.t) :
  ~ In (Guest.id g) (map Guest.id l) ->
  map (fun x => if Guest.id x =? Guest.id g then g else x) l = l.
Proof.
  induction l as [|x l IH]; cbn; intros H; [reflexivity|].
  destruct (Guest.id x =? Guest.id g) eqn:E.
  - apply Z.eqb_eq in E. exfalso. apply H. now left.
  - f_equal. apply IH. tauto.
Qed.

Lemma guests_replace_ids (g : Guest.t) (l : list Guest.t) :
  map Guest.id (map (fun x => if Guest.id x =? Guest.id g then g else x) l)
  = map Guest.id l.
Proof.
  rewrite map_map. apply map_ext. intros x.
  destruct (Guest.id x =? Guest.id g) eqn:E; [|reflexivity].
  apply Z.eqb_eq in E. now rewrite E.
Qed.

Lemma In_documents_replace (g : Guest.t) (l : list Guest.t) (d : string) :
  In d (documents (map (fun x => if Guest.id x =? Guest.id g then g else x) l)) ->
  In d (documents l) \/ Guest.document g = Some d.
Proof.
  intros H. apply In_documents in H. destruct H as [y [Hy Hd]].
  apply in_map_iff in Hy. destruct Hy as [x [Ex Hx]].
  destruct (Guest.id x =? Guest.id g); subst y; [now right|].
  left. apply In_documents. eauto.
Qed.

Lemma documents_cons (x : Guest.t) (l : list Guest.t) :
  documents (x :: l)
  = match Guest.document x with Some d => [d] | None => [] end ++ documents l.
Proof. reflexivity. Qed.

Lemma guests_replace_documents (g : Guest.t) (l : list Guest.t) :
  NoDup (map Guest.id l) -> NoDup (documents l) ->
  (forall y d, In y l -> Guest.id y <> Guest.id g ->
     Guest.document g = Some d -> Guest.document y <> Some d) ->
  NoDup (documents (map (fun x => if Guest.id x =? Guest.id g then g else x) l)).
Proof.
  induction l as [|x l IH]; intros Hi Hd Ho; [constructor|].
  cbn [map] in Hi. inversion Hi as [|? ? Hn Hi']; subst.
  rewrite documents_cons in Hd. cbn [map].
  assert (Hl : NoDup (documents l)).
  { destruct (Guest.document x); cbn in Hd; [now inversion Hd | assumption]. }
  destruct (Guest.id x =? Guest.id g) eqn:E.
  - apply Z.eqb_eq in E. rewrite guests_replace_absent by (now rewrite <- E).
    rewrite documents_cons.
    destruct (Guest.document g) as [d|] eqn:Eg; cbn; [|assumption].
    constructor; [|assumption].
    intros Hin. apply In_documents in Hin. destruct Hin as [y [Hy Hyd]].
    apply (Ho y d); auto; [now right|].
    intros Eid. apply Hn. rewrite E, <- Eid. now apply in_map.
  - apply Z.eqb_neq in E. rewrite documents_cons.
    assert (IH' : NoDup (documents
              (map (fun x => if Guest.id x =? Guest.id g then g else x) l))).
    { apply IH; auto. intros y d Hy. apply Ho. now right. }
    destruct (Guest.document x) as [d|] eqn:Ex; cbn; [|assumption].
    constructor; [|assumption].
    intros Hin. apply In_documents_replace in Hin. destruct Hin as [Hin|Hin].
    + cbn in Hd. inversion Hd; auto.
    + apply (Ho x d); auto. now left.
Qed.

Lemma edit_guest_ok strip s i f :
  guests_ok s -> guests_ok (fst (edit_guest strip s i f)).
Proof.
  intros [Hi Hd]. unfold edit_guest.
  destruct (get_guest s i) as [g0|] eqn:Hg; [|now split].
  destruct (g_name f) as [name|]; [|now split].
  match goal with |- context [document_taken ?l ?k ?d] =>
    destruct (document_taken l k d) eqn:E end; [now split|].
  cbn [fst]. split; cbn [guests].
  - now rewrite guests_replace_ids.
  - apply guests_replace_documents; auto.
    cbn [Guest.id Guest.document] in *. intros y d Hy Hne Hdoc Hyd.
    rewrite Hdoc in E.
    apply Hne. exact (document_taken_false _ _ d E y Hy Hyd).
Qed.

(** X18. Starting from a guest table with distinct ids in which no document
    is held by two guests, every sequence of registrations and edits leads to
    such a table again, and changes neither the rooms nor the bookings. *)
Theorem guest_routes_keep_documents_unique strip rs : forall s,
  guests_ok s ->
  guests_ok (run_guests strip s rs)
  /\ rooms (run_guests strip s rs) = rooms s
  /\ bookings (run_guests strip s rs) = bookings s.
Proof.
  induction rs as [|r rs IH]; intros s Hs.
  - repeat split; apply Hs.
  - assert (Hstep : guests_ok (fst (handle_guest strip s r))
                    /\ rooms (fst (handle_guest strip s r)) = rooms s
                    /\ bookings (fst (handle_guest strip s r)) = bookings s).
    { destruct r as [f|i f]; cbn [handle_guest];
        (split; [auto using new_guest_ok, edit_guest_ok|]).
      - unfold new_guest. destruct (g_name f); [|now split].
        destruct (document_taken _ _ _); now split.
      - unfold edit_guest. destruct (get_guest s i); [|now split].
        destruct (g_name f); [|now split].
        destruct (document_taken _ _ _); now split. }
    destruct Hstep as [H1 [H2 H3]].
    destruct (IH _ H1) as [H4 [H5 H6]].
    change (run_guests strip s (r :: rs))
      with (run_guests strip (fst (handle_guest strip s r)) rs).
    repeat split; try apply H4; congruence.
Qed.

Lemma guests_ok_guests_db : guests_ok guests_db.
Proof.
  split; cbn; repeat constructor; cbn; intuition discriminate.
Qed.

Lemma guest_routes_keep_documents_unique_witness :
  guests_ok
    (run_guests strip_spaces guests_db
       [ POST_new_guest (mkGuestForm (Some " Carla ") (Some "222 ") None None);
         POST_new_guest (mkGuestForm (Some "Davi") (Some " 111") None None);
         POST_edit_guest 2 (mkGuestForm (Some "Bruno") (Some "222") None None);
         POST_edit_guest 2 (mkGuestForm (Some "Bruno") (Some "333") None None) ]%string)
  /\ rooms
       (run_guests strip_spaces guests_db
          [ POST_new_guest (mkGuestForm (Some " Carla ") (Some "222 ") None None);
            POST_new_guest (mkGuestForm (Some "Davi") (Some " 111") None None);
            POST_edit_guest 2 (mkGuestForm (Some "Bruno") (Some "222") None None);
            POST_edit_guest 2 (mkGuestForm (Some "Bruno") (Some "333") None None) ]%string)
     = rooms guests_db
  /\ bookings
       (run_guests strip_spaces guests_db
          [ POST_new_guest (mkGuestForm (Some " Carla ") (Some "222 ") None None);
            POST_new_guest (mkGuestForm (Some "Davi") (Some " 111") None None);
            POST_edit_guest 2 (mkGuestForm (Some "Bruno") (Some "222") None None);
            POST_edit_guest 2 (mkGuestForm (Some "Bruno") (Some "333") None None) ]%string)
     = bookings guests_db.
Proof.
  apply (guest_routes_keep_documents_unique strip_spaces _ guests_db
           guests_ok_guests_db).
Defined.

Lemma document_taken_true l skip d g :
  In g l -> Guest.document g = Some d ->
  match skip with Some i => Guest.id g <> i | None => True end ->
  document_taken l skip (Some d) = true.
Proof.
  intros Hg Hd Hs. cbn [document_taken]. apply existsb_exists.
  exists g. split; [assumption|]. rewrite Hd, String.eqb_refl. cbn.
  destruct skip as [i|]; [|reflexivity].
  apply negb_true_iff. now apply Z.eqb_neq.
Qed.

(** X19. Registering a guest whose name field is present: when the document
    is blank after stripping, the guest is always added, with no document and
    the next id, whatever guests are on file; when the stripped document is
    not blank and is held by a guest on file, the registration fails and
    nothing is stored. *)
Theorem new_guest_document_rule strip s f name :
  g_name f = Some name ->
  (strip (form_get (g_document f)) = EmptyString ->
     exists g,
       new_guest strip s f
       = (mkDB (rooms s) (guests s ++ [g]) (bookings s), GuestRegistered)
       /\ Guest.id g = next_guest_id s
       /\ Guest.name g = strip name
       /\ Guest.document g = None)
  /\ (forall g0, In g0 (guests s) ->
        strip (form_get (g_document f)) <> EmptyString ->
        Guest.document g0 = Some (strip (form_get (g_document f))) ->
        new_guest strip s f = (s, GuestIntegrityError)).
Proof.
  intros Hn. split.
  - intros Hd. unfold new_guest. rewrite Hn, Hd. cbn.
    eexists. split; [reflexivity|]. cbn. tauto.
  - intros g0 Hg Hne Hd. unfold new_guest. rewrite Hn. cbn [Guest.document].
    destruct (strip (form_get (g_document f))) as [|c v] eqn:E; [congruence|].
    cbn [or_None]. now rewrite (document_taken_true _ None _ g0 Hg Hd I).
Qed.

Lemma new_guest_document_rule_witness :
  (exists g,
      new_guest strip_spaces guests_db
                (mkGuestForm (Some "Eva") (Some "  ") None None)%string
      = (mkDB (rooms guests_db) (guests guests_db ++ [g]) (bookings guests_db),
         GuestRegistered)
      /\ Guest.id g = next_guest_id guests_db
      /\ Guest.name g = strip_spaces "Eva"
      /\ Guest.document g = None)
  /\ new_guest strip_spaces guests_db
               (mkGuestForm (Some "Davi") (Some " 111") None None)%string
     = (guests_db, GuestIntegrityError).
Proof.
  split.
  - apply (proj1 (new_guest_document_rule strip_spaces guests_db
                    (mkGuestForm (Some "Eva") (Some "  ") None None)%string
                    "Eva"%string eq_refl)).
    reflexivity.
  - apply (proj2 (new_guest_document_rule strip_spaces guests_db
                    (mkGuestForm (Some "Davi") (Some " 111") None None)%string
                    "Davi"%string eq_refl)
             (Guest.mk 1 "Ana" (Some "111") None None)%string);
      [now left | discriminate | reflexivity].
Defined.

Lemma documents_unique_owner (l : list Guest.t) (g y : Guest.t) (d : string) :
  NoDup (documents l) -> In g l -> In y l ->
  Guest.document g = Some d -> Guest.document y = Some d -> g = y.
Proof.
  induction l as [|x l IH]; intros Hd Hg Hy Eg Ey; [contradiction|].
  rewrite documents_cons in Hd.
  assert (Hother : forall z, In z l -> Guest.document z = Some d ->
                     Guest.document x = Some d -> False).
  { intros z Hz Ez Ex. rewrite Ex in Hd. cbn in Hd. inversion Hd as [|? ? Hn _].
    apply Hn. apply In_documents. eauto. }
  assert (Hl : NoDup (documents l)).
  { destruct (Guest.document x); cbn in Hd; [now inversion Hd | assumption]. }
  destruct Hg as [<-|Hg], Hy as [<-|Hy]; auto.
  - exfalso. eapply Hother; eauto.
  - exfalso. eapply Hother; eauto.
Qed.

(** X20. On a guest table in which no document is held by two guests,
    editing a guest and keeping its document (or its absence of one) is never
    refused: the uniqueness check does not count the guest's own row. *)
Theorem edit_guest_keeps_own_document strip s i f g0 name :
  guests_ok s -> get_guest s i = Some g0 -> g_name f = Some name ->
  or_None (strip (form_get (g_document f))) = Guest.document g0 ->
  snd (edit_guest strip s i f) = GuestUpdated.
Proof.
  intros [_ Hd] Hg Hn Hdoc. unfold edit_guest. rewrite Hg, Hn.
  cbn [Guest.document Guest.id]. rewrite Hdoc.
  match goal with |- context [document_taken ?l ?k ?d] =>
    destruct (document_taken l k d) eqn:E end; [|reflexivity].
  exfalso. destruct (Guest.document g0) as [d|] eqn:Ed; [|discriminate].
  cbn [document_taken] in E. apply existsb_exists in E.
  destruct E as [y [Hy Hc]].
  destruct (Guest.document y) as [d'|] eqn:Ey; [|discriminate].
  apply andb_true_iff in Hc. destruct Hc as [H1 H2].
  apply String.eqb_eq in H1. subst d'.
  apply negb_true_iff, Z.eqb_neq in H2. apply H2. f_equal.
  apply find_some in Hg. destruct Hg as [Hg0 _].
  symmetry. now apply (documents_unique_owner (guests s) g0 y d).
Qed.

Lemma edit_guest_keeps_own_document_witness :
  snd (edit_guest strip_spaces guests_db 1
         (mkGuestForm (Some "Ana Lima") (Some "111 ") (Some "555") None)%string)
  = GuestUpdated.
Proof.
  apply (edit_guest_keeps_own_document strip_spaces guests_db 1
           (mkGuestForm (Some "Ana Lima") (Some "111 ") (Some "555") None)%string
           (Guest.mk 1 "Ana" (Some "111") None None)%string "Ana Lima"%string
           guests_ok_guests_db);
    reflexivity.
Defined.

(** * Lists of bookings *)

(** X21. The booking list holds at most 200 bookings of the table, newest
    check-in first; with a status argument every booking listed has that
    status, and an argument that names no status gives the empty list. *)
Theorem bookings_view_spec s status :
  let u := View.bookings s status in
  (List.length u <= 200)%nat
  /\ (forall x, In x u ->
        In x (bookings s)
        /\ (status <> EmptyString -> Status_str (Booking.status x) = status))
  /\ StronglySorted (fun a b => Booking.check_in b <= Booking.check_in a) u
  /\ (status <> EmptyString -> (forall st, Status_str st <> status) -> u = []).
Proof.
  unfold View.bookings.
  match goal with |- context [limit 200 (order_by _ ?l)] => set (q := l) end.
  destruct (limit_order_by_spec check_in_desc 200 q
              check_in_desc_total check_in_desc_trans) as [H1 [H2 [H3 _]]].
  set (u0 := limit 200 (order_by check_in_desc q)) in *. cbv zeta.
  assert (Hq : forall x, In x q ->
             In x (bookings s)
             /\ (status <> EmptyString -> Status_str (Booking.status x) = status)).
  { intros x Hx. unfold q in Hx. destruct status as [|c v].
    - split; [assumption | congruence].
    - apply filter_In in Hx. destruct Hx as [Hx E].
      apply String.eqb_eq in E. tauto. }
  repeat split.
  - exact H1.
  - apply Hq, H2, H.
  - apply Hq, H2, H.
  - apply (StronglySorted_weaken _ _ u0 H3).
    intros a b. unfold check_in_desc. apply Z.leb_le.
  - intros Hne Hno. destruct u0 as [|x u1] eqn:Eu; [reflexivity|].
    exfalso. destruct (Hq x (H2 x (or_introl eq_refl))) as [_ Hst].
    exact (Hno _ (Hst Hne)).
Qed.


(** * Transitions and the room map *)

(** X23. On a table with distinct ids and no overlap among active bookings
    of a room, once a [reservado] booking is checked in, its room is reported
    [checkin] for every date of the stay. *)
Theorem room_status_after_checkin today s i b room d :
  Inv s -> get_booking s i = Some b -> Booking.status b = reservado ->
  Room.id room = Booking.room_id b -> covers b d ->
  room_status today (fst (booking_checkin s i)) room (Some d)
  = "checkin"%string.
Proof.
  intros HI Hb Hs Hroom Hc.
  pose proof (booking_checkin_Inv s i HI) as HI'.
  assert (E : booking_checkin s i
              = (db_update s (Booking.set_status b checkin), Redirect CheckinDone)).
  { unfold booking_checkin. now rewrite Hb, Hs. }
  rewrite E in *. cbn [fst] in *.
  apply (room_status_covering today _ room (Some d) checkin HI' (or_introl eq_refl)).
  exists (Booking.set_status b checkin).
  split; [|cbn; repeat split; try congruence; apply Hc].
  pose proof (get_booking_some s i b Hb) as [_ Hid].
  pose proof (get_booking_db_update s i b (Booking.set_status b checkin) Hb Hid) as H.
  apply get_booking_some in H. tauto.
Qed.

Lemma room_status_after_checkin_witness :
  room_status (ymd 2024 3 1) (fst (booking_checkin sample_db 1)) room_101
              (Some (ymd 2024 3 11))
  = "checkin"%string.
Proof.
  apply (room_status_after_checkin (ymd 2024 3 1) sample_db 1 booking_A room_101
           (ymd 2024 3 11) Inv_sample_db);
    [reflexivity | reflexivity | reflexivity |].
  split; [vm_compute; discriminate | reflexivity].
Defined.

(** X24. On a table with distinct ids and no overlap among active bookings
    of a room, once an active booking is cancelled, or checked out with its
    room on file, its room is reported [livre] for every date the stay
    covered. *)
Theorem room_status_after_release today s i b room d r :
  Inv s -> get_booking s i = Some b -> is_active b = true ->
  Room.id room = Booking.room_id b -> covers b d ->
  r = GET_booking_cancel i
  \/ (exists day, r = GET_booking_checkout day i
                  /\ Booking.status b = checkin
                  /\ get_room s (Booking.room_id b) <> None) ->
  room_status today (fst (handle s r)) room (Some d) = "livre"%string.
Proof.
  intros HI Hb Ha Hroom Hc Hr.
  pose proof (Inv_at_most_one s HI) as Hone.
  pose proof (get_booking_some s i b Hb) as [Hin Hid].
  assert (Hs' : exists b', fst (handle s r) = db_update s b'
                           /\ Booking.id b' = i /\ is_active b' = false).
  { destruct Hr as [-> | [day [-> [Hs Hroomf]]]]; cbn [handle].
    - exists (Booking.set_status b cancelado).
      unfold booking_cancel. rewrite Hb.
      apply is_active_cases in Ha. destruct Ha as [Es|Es]; rewrite Es;
        cbn; repeat split; auto.
    - destruct (get_room s (Booking.room_id b)) as [rm|] eqn:Erm; [|congruence].
      exists (checked_out b rm day).
      rewrite (booking_checkout_ok day s i b rm Hb Hs Erm). cbn. tauto. }
  destruct Hs' as [b' [Es' [Hid' Hina]]]. rewrite Es'.
  apply room_status_livre. intros [y [Hy [Hyr [Hya Hyc]]]].
  unfold db_update in Hy. cbn [bookings] in Hy.
  apply in_map_iff in Hy. destruct Hy as [x [Ex Hx]].
  destruct (Booking.id x =? Booking.id b') eqn:E.
  - subst y. congruence.
  - subst y. apply Z.eqb_neq in E. apply E.
    assert (x = b); [|congruence].
    apply (Hone (Room.id room) d x b); auto.
Qed.

Lemma room_status_after_release_witness :
  room_status (ymd 2024 3 1)
              (fst (handle sample_db (GET_booking_checkout (ymd 2024 3 13) 2)))
              room_101 (Some (ymd 2024 3 13))
  = "livre"%string.
Proof.
  apply (room_status_after_release (ymd 2024 3 1) sample_db 2 booking_B room_101
           (ymd 2024 3 13) (GET_booking_checkout (ymd 2024 3 13) 2) Inv_sample_db);
    [reflexivity | reflexivity | reflexivity | | ].
  - split; [vm_compute; discriminate | reflexivity].
  - right. exists (ymd 2024 3 13). repeat split. discriminate.
Defined.

(** * Bootstrap and report requests *)

(** X25. The bootstrap seeds the 22 rooms, with distinct ids and numbers,
    only into an empty rooms table: a database that has rooms is left as it
    is, guests and bookings are never touched, and running the bootstrap a
    second time changes nothing. *)
Theorem bootstrap_idempotent s :
  bootstrap (bootstrap s) = bootstrap s
  /\ (rooms s <> [] -> bootstrap s = s)
  /\ (rooms s = [] ->
      rooms (bootstrap s) = seed_rooms
      /\ List.length (rooms (bootstrap s)) = 22%nat
      /\ NoDup (map Room.id (rooms (bootstrap s)))
      /\ NoDup (map Room.number (rooms (bootstrap s))))
  /\ guests (bootstrap s) = guests s
  /\ bookings (bootstrap s) = bookings s.
Proof.
  unfold bootstrap. destruct (rooms s) as [|r l] eqn:E; cbn [List.length].
  - cbn. repeat split; try congruence.
    + repeat constructor; cbn; intuition discriminate.
    + repeat constructor; cbn; intuition discriminate.
  - assert (H : (Z.of_nat (S (List.length l)) =? 0) = false)
      by (apply Z.eqb_neq; lia).
    rewrite H, E. cbn [List.length]. rewrite H.
    repeat split; try congruence; discriminate.
Qed.

(** X26. A report request whose two dates are given, parse, and have the end
    after the start is answered with the page of exactly that period, without
    message, showing the amounts of the [checkout] bookings whose check-out
    falls in the period. *)
Theorem reports_valid_range strptime today s d1 d2 a b :
  truthy (Some d1) = true -> truthy (Some d2) = true ->
  strptime d1 = Some a -> strptime d2 = Some b -> a < b ->
  exists rate,
    reports strptime today s (Some d1) (Some d2)
    = ReportPage [] a b (period_revenue s a b) rate.
Proof.
  intros T1 T2 E1 E2 Hab. unfold reports, report_period.
  rewrite T1, T2, E1, E2. cbn [andb].
  apply Z.leb_gt in Hab. rewrite Hab.
  destruct (report_figures_revenue s a b) as [rate H]. rewrite H. eauto.
Qed.

Lemma reports_valid_range_witness :
  exists rate,
    reports Calendar.iso_date (ymd 2024 6 1) sample_db
            (Some "2024-03-01"%string) (Some "2024-04-01"%string)
    = ReportPage [] (ymd 2024 3 1) (ymd 2024 4 1)
                 (period_revenue sample_db (ymd 2024 3 1) (ymd 2024 4 1)) rate.
Proof.
  apply (reports_valid_range Calendar.iso_date (ymd 2024 6 1) sample_db
           "2024-03-01"%string "2024-04-01"%string (ymd 2024 3 1) (ymd 2024 4 1));
    reflexivity.
Defined.
